(** * Verification of [configs/validate_schemas.py]

    The script validates five fixed mirror-configuration files against
    [ToolsConfiguration.schema.json], prints a report and exits with 0 or 1.

    The embedding is shallow: the script's functions ([load_schema],
    [validate_file], [main]) are Rocq functions in a small monad that threads
    a world (filesystem, standard output, log of filesystem calls) and
    propagates Python exceptions.  The two libraries the script imports
    ([json] and [jsonschema]) are not part of the repository; they are taken
    as an interface ([Libraries]) whose functions either return a value or
    raise an exception.

    [Path.exists] is a parameter of the loop and of [main]
    ([check_target_with], [main_with], ...): [path_exists] is the test on a
    filesystem where no [stat] is refused, [path_exists_os] the test that
    re-raises a refused [stat]; [check_target], [main], [script] and
    [exit_status] are the script with the former.

    What the model leaves out: [print] always succeeds, the filesystem does
    not change under the script's feet, and no signal interrupts a run. *)

From stdpp Require Import base strings list gmap pretty.
From Stdlib Require Import ZArith.

Local Open Scope Z_scope.
Local Open Scope string_scope.
Local Open Scope list_scope.

(** ** Python exceptions *)

(** The exception classes that can occur in the script, all below
    [Exception].  [UserClass] stands for any other class deriving directly
    from [Exception]. *)
Inductive pyclass :=
  | Exception
  | OSError
  | FileNotFoundError
  | IsADirectoryError
  | PermissionError
  | ValueError
  | UnicodeError
  | UnicodeDecodeError
  | JSONDecodeError
  | JsonschemaError
  | ValidationError
  | SchemaError
  | RuntimeError
  | RecursionError
  | UserClass (name : string).

Global Instance pyclass_eq_dec : EqDecision pyclass.
Proof. solve_decision. Defined.

(** Direct base class.  [json.JSONDecodeError] derives from [ValueError];
    jsonschema's [ValidationError] and [SchemaError] are siblings, both
    deriving from its private [_Error], here [JsonschemaError]. *)
Definition base_class (c : pyclass) : option pyclass :=
  match c with
  | Exception => None
  | OSError => Some Exception
  | FileNotFoundError => Some OSError
  | IsADirectoryError => Some OSError
  | PermissionError => Some OSError
  | ValueError => Some Exception
  | UnicodeError => Some ValueError
  | UnicodeDecodeError => Some UnicodeError
  | JSONDecodeError => Some ValueError
  | JsonschemaError => Some Exception
  | ValidationError => Some JsonschemaError
  | SchemaError => Some JsonschemaError
  | RuntimeError => Some Exception
  | RecursionError => Some RuntimeError
  | UserClass _ => Some Exception
  end.

Fixpoint issubclass_fuel (fuel : nat) (c d : pyclass) : bool :=
  if decide (c = d) then true
  else match fuel with
       | O => false
       | S fuel' =>
           match base_class c with
           | Some b => issubclass_fuel fuel' b d
           | None => false
           end
       end.

(** No class above is more than three steps below [Exception]. *)
Definition issubclass : pyclass → pyclass → bool := issubclass_fuel 3.

(** An exception instance: its class, [str(e)], and the [message] attribute
    that jsonschema's errors carry. *)
Record exception := Exc_ {
  exc_class : pyclass;
  exc_str : string;
  exc_message : string
}.

Definition isinstance (e : exception) (c : pyclass) : bool :=
  issubclass (exc_class e) c.

(** What unwinds the stack: an [Exception], or the [SystemExit] raised by
    [sys.exit], which derives from [BaseException] only and is therefore
    caught by no [except] clause of the script. *)
Inductive raised :=
  | Exc (e : exception)
  | SystemExit (code : Z).

Inductive outcome (A : Type) :=
  | Return (a : A)
  | Raise (r : raised).
Arguments Return {A} a.
Arguments Raise {A} r.

(** ** Filesystem, standard output *)

(** A path is its sequence of parts, as in [pathlib]. *)
Abbreviation path := (list string).

Definition joinpath (dir : path) (name : string) : path := dir ++ [name].

Definition path_name (p : path) : string := default "" (last p).

Inductive node :=
  | RegularFile (readable : bool) (content : string)
  | Directory.

Inductive open_mode := ModeR | ModeW.

Inductive syscall :=
  | SysStat (p : path)
  | SysOpen (p : path) (mode : open_mode)
  | SysRead (p : path).

Definition read_only_call (c : syscall) : Prop :=
  match c with
  | SysOpen _ ModeW => False
  | _ => True
  end.

Record world := World {
  fs : gmap path node;
  stdout : list string;
  syscalls : list syscall
}.

(** ** The monad of script computations *)

Definition M (A : Type) : Type := world → outcome A * world.

Global Instance M_ret : MRet M := λ A a w, (Return a, w).

Global Instance M_bind : MBind M := λ A B k m w,
  match m w with
  | (Return a, w') => k a w'
  | (Raise r, w') => (Raise r, w')
  end.

Definition raise {A} (e : exception) : M A := λ w, (Raise (Exc e), w).

(** [sys.exit(code)] *)
Definition sys_exit {A} (code : Z) : M A := λ w, (Raise (SystemExit code), w).

(** [try: body except C1 as e: h1 except C2 as e: h2 ...]: the first clause
    whose class the exception is an instance of handles it. *)
Fixpoint dispatch {A} (clauses : list (pyclass * (exception → M A)))
    (e : exception) : option (M A) :=
  match clauses with
  | [] => None
  | (c, h) :: rest => if isinstance e c then Some (h e) else dispatch rest e
  end.

Definition try_except {A} (body : M A)
    (clauses : list (pyclass * (exception → M A))) : M A := λ w,
  match body w with
  | (Return a, w') => (Return a, w')
  | (Raise (SystemExit c), w') => (Raise (SystemExit c), w')
  | (Raise (Exc e), w') =>
      match dispatch clauses e with
      | Some h => h w'
      | None => (Raise (Exc e), w')
      end
  end.

Definition log (c : syscall) (w : world) : world :=
  World (fs w) (stdout w) (syscalls w ++ [c]).

(** [print(s)] *)
Definition print (s : string) : M unit := λ w,
  (Return tt, World (fs w) (stdout w ++ [s]) (syscalls w)).

(** [Path.exists()] when [stat] fails on an absent path only. *)
Definition path_exists (p : path) : M bool := λ w,
  (Return (bool_decide (is_Some (fs w !! p))), log (SysStat p) w).

(** [str(path)] of a POSIX path: the parts joined by slashes, after the
    root when the first part is the root. *)
Definition path_str (p : path) : string :=
  match p with
  | "/" :: rest => "/" +:+ String.concat "/" rest
  | _ => String.concat "/" p
  end.

(** The [OSError] of class [c] for a failed call on [p]; its [str] is
    CPython's: the errno and its text, then the quoted path. *)
Definition os_error (c : pyclass) (what : string) (p : path) : exception :=
  Exc_ c (what +:+ ": '" +:+ path_str p +:+ "'") "".

(** [open(p, mode, encoding='utf-8')].  Mode ['r'] leaves the filesystem as
    it is; mode ['w'] creates or truncates the file.  The result is a handle
    on the path. *)
Definition py_open (p : path) (mode : open_mode) : M path := λ w,
  let w1 := log (SysOpen p mode) w in
  match mode, fs w !! p with
  | _, Some Directory => (Raise (Exc (os_error IsADirectoryError "[Errno 21] Is a directory" p)), w1)
  | ModeR, None => (Raise (Exc (os_error FileNotFoundError "[Errno 2] No such file or directory" p)), w1)
  | ModeR, Some (RegularFile false _) =>
      (Raise (Exc (os_error PermissionError "[Errno 13] Permission denied" p)), w1)
  | ModeR, Some (RegularFile true _) => (Return p, w1)
  | ModeW, _ =>
      (Return p, World (<[p := RegularFile true ""]> (fs w)) (stdout w) (syscalls w1))
  end.

(** [Path.exists()] when [stat] is refused on the paths of [denied] (they lie
    behind a directory without search permission): [Path.exists] answers
    [False] for the errors ENOENT, ENOTDIR, EBADF and ELOOP only and
    re-raises every other [OSError], here EACCES. *)
Definition path_exists_os (denied : gset path) (p : path) : M bool := λ w,
  if decide (p ∈ denied) then
    (Raise (Exc (os_error PermissionError "[Errno 13] Permission denied" p)),
     log (SysStat p) w)
  else path_exists p w.

(** ** The imported libraries *)

(** [pyobj] is the type of parsed JSON values.  [utf8_decode] is the text
    decoding done by a file opened with [encoding='utf-8'], [json_loads] is
    [json.loads], and [jsonschema_validate instance schema] is
    [jsonschema.validate].  Each either returns or raises an [Exception]. *)
Class Libraries := {
  pyobj : Type;
  utf8_decode : string → exception + string;
  json_loads : string → exception + pyobj;
  jsonschema_validate : pyobj → pyobj → exception + unit
}.

Definition lift {A} (r : exception + A) : M A :=
  match r with
  | inl e => raise e
  | inr a => mret a
  end.

(** [f.read()] on a handle from [py_open]. *)
Definition file_read `{Libraries} (f : path) : M string := λ w,
  let w1 := log (SysRead f) w in
  match fs w !! f with
  | Some (RegularFile _ content) => lift (utf8_decode content) w1
  | _ => (Raise (Exc (os_error OSError "[Errno 9] Bad file descriptor" f)), w1)
  end.

(** [json.load(f)] is [json.loads(f.read())]. *)
Definition json_load `{Libraries} (f : path) : M pyobj :=
  text ← file_read f; lift (json_loads text).

Definition validate `{Libraries} (instance schema : pyobj) : M unit :=
  lift (jsonschema_validate instance schema).

(** ** String helpers *)

(** [s * n] *)
Fixpoint str_mul (s : string) (n : nat) : string :=
  match n with
  | O => ""
  | S n' => s +:+ str_mul s n'
  end.

(** A byte [10xxxxxx] continues a UTF-8 sequence; every other byte starts a
    code point. *)
Definition is_continuation (c : Ascii.ascii) : bool :=
  match c with
  | Ascii.Ascii _ _ _ _ _ _ b6 b7 => b7 && negb b6
  end.

(** [len(s)] of the Python string that the UTF-8 bytes [s] encode: its
    number of code points. *)
Fixpoint code_points (s : string) : nat :=
  match s with
  | EmptyString => 0
  | String c rest => (if is_continuation c then 0 else 1) + code_points rest
  end.

(** The format specification [:30s]: left-justified in a field of the given
    width, counted in code points. *)
Definition ljust (width : nat) (s : string) : string :=
  s +:+ str_mul " " (width - code_points s).

Definition nl : string := String (Ascii.ascii_of_nat 10) "".

(** ** Computations that only read the filesystem *)

(** [extend w out calls]: the world [w] after printing [out] and making the
    filesystem calls [calls], none of which changed a file. *)
Definition extend (w : world) (out : list string) (calls : list syscall) : world :=
  World (fs w) (stdout w ++ out) (syscalls w ++ calls).

(** A computation reads only when, from any world, it behaves as it does
    from the same filesystem with empty output and log: same outcome, its
    output and calls appended, the filesystem kept, and no call opens a file
    for writing. *)
Definition reads_only {A} (m : M A) : Prop :=
  ∀ w, ∃ r out calls,
    m (World (fs w) [] []) = (r, World (fs w) out calls) ∧
    m w = (r, extend w out calls) ∧
    Forall read_only_call calls.

(** [runs m w r out calls]: from [w], [m] ends with outcome [r] after
    printing [out] and making the calls [calls], the filesystem unchanged. *)
Definition runs {A} (m : M A) (w : world) (r : outcome A)
    (out : list string) (calls : list syscall) : Prop :=
  m w = (r, extend w out calls).

(** A read-only call on path [p]. *)
Definition touches (p : path) (c : syscall) : Prop :=
  c = SysStat p ∨ c = SysOpen p ModeR ∨ c = SysRead p.

(** ** The script *)

Section Script.
Context `{Libraries}.

(** [CONFIG_DIR = Path(__file__).parent]: the directory of the script. *)
Variable CONFIG_DIR : path.

Definition SCHEMA_FILE : path := joinpath CONFIG_DIR "ToolsConfiguration.schema.json".

Definition MIRROR_FILES : list string :=
  [ "brew_mirror.json";
    "maven_mirror.json";
    "npm_mirror.json";
    "orbstack_mirror.json";
    "python_pip.json" ].

Definition load_schema : M pyobj :=
  f ← py_open SCHEMA_FILE ModeR;
  json_load f.

Definition validate_file (schema : pyobj) (file_path : path) : M (bool * string) :=
  try_except
    (f ← py_open file_path ModeR;
     data ← json_load f;
     validate data schema;;
     mret (true, "✅ 通过"))
    [ (ValidationError, λ e, mret (false, "❌ 验证失败: " +:+ exc_message e));
      (JSONDecodeError, λ e, mret (false, "❌ JSON 解析错误: " +:+ exc_str e));
      (Exception, λ e, mret (false, "❌ 错误: " +:+ exc_str e)) ].

(** An entry of [results]: [(filename, success, message)]. *)
Abbreviation result := (string * bool * string)%type.

(** The body of the first [for] loop of [main] (lines 62-68), returning the
    tuple it appends to [results].  [exists_] is [Path.exists]. *)
Definition check_target_with (exists_ : path → M bool)
    (schema : pyobj) (filename : string) : M result :=
  let file_path := joinpath CONFIG_DIR filename in
  present ← exists_ file_path;
  if negb present then
    mret (filename, false, "⚠️ 文件不存在")
  else
    '(success, message) ← validate_file schema file_path;
    mret (filename, success, message).

(** [for filename in files: ...], with [results] as accumulator. *)
Fixpoint validate_targets_with (exists_ : path → M bool) (schema : pyobj)
    (files : list string) (results : list result) : M (list result) :=
  match files with
  | [] => mret results
  | filename :: rest =>
      r ← check_target_with exists_ schema filename;
      validate_targets_with exists_ schema rest (results ++ [r])
  end.

(** [for filename, success, message in results: ...], with [all_passed] as
    accumulator. *)
Fixpoint report (results : list result) (all_passed : bool) : M bool :=
  match results with
  | [] => mret all_passed
  | (filename, success, message) :: rest =>
      let status_symbol := if success then "✓" else "✗" in
      print (status_symbol +:+ " " +:+ ljust 30 filename +:+ " " +:+ message);;
      report rest (if negb success then false else all_passed)
  end.

Definition main_with (exists_ : path → M bool) : M Z :=
  print (str_mul "=" 60);;
  print "镜像配置文件 Schema 验证";;
  print (str_mul "=" 60);;
  schema ← try_except
    (schema ← load_schema;
     print ("✓ 已加载 schema: " +:+ path_name SCHEMA_FILE +:+ nl);;
     mret schema)
    [ (Exception, λ e,
        print ("❌ 无法加载 schema 文件: " +:+ exc_str e);;
        sys_exit 1) ];
  results ← validate_targets_with exists_ schema MIRROR_FILES [];
  print (nl +:+ "验证结果:");;
  print (str_mul "-" 60);;
  all_passed ← report results true;
  print (str_mul "-" 60);;
  if all_passed : bool then
    print (nl +:+ "✅ 所有文件验证通过！");;
    mret 0
  else
    print (nl +:+ "❌ 部分文件验证失败，请检查上述错误！");;
    mret 1.

(** [if __name__ == "__main__": sys.exit(main())] *)
Definition script_with (exists_ : path → M bool) : M unit :=
  code ← main_with exists_;
  sys_exit code.

(** The exit status of the interpreter: the code of [SystemExit], 1 after
    an uncaught exception, 0 when the script runs to its end. *)
Definition exit_status_with (exists_ : path → M bool) (w : world) : Z :=
  match fst (script_with exists_ w) with
  | Return _ => 0
  | Raise (SystemExit code) => code
  | Raise (Exc _) => 1
  end.

(** The script on a filesystem where no [stat] is refused. *)
Definition check_target : pyobj → string → M result :=
  check_target_with path_exists.

Definition validate_targets : pyobj → list string → list result → M (list result) :=
  validate_targets_with path_exists.

Definition main : M Z := main_with path_exists.

Definition script : M unit := script_with path_exists.

Definition exit_status : world → Z := exit_status_with path_exists.

(** The tuple that the loop body appends for [filename] on filesystem [σ],
    obtained by running the body. *)
Definition target_result (schema : pyobj) (σ : gmap path node)
    (filename : string) : result :=
  match (check_target schema filename (World σ [] [])).1 with
  | Return r => r
  | Raise _ => (filename, false, "")
  end.

Definition success (r : result) : bool := r.1.2.

(** The line of the report for one tuple. *)
Definition report_line (r : result) : string :=
  (if success r then "✓" else "✗") +:+ " " +:+ ljust 30 r.1.1 +:+ " " +:+ r.2.

(** What a run prints when the schema loads and the loop yields
    [results]. *)
Definition report_transcript (results : list result) : list string :=
  [ str_mul "=" 60; "镜像配置文件 Schema 验证"; str_mul "=" 60;
    "✓ 已加载 schema: ToolsConfiguration.schema.json" +:+ nl;
    nl +:+ "验证结果:"; str_mul "-" 60 ] ++
  (report_line <$> results) ++
  [ str_mul "-" 60;
    if forallb success results
    then nl +:+ "✅ 所有文件验证通过！"
    else nl +:+ "❌ 部分文件验证失败，请检查上述错误！" ].

(** What a run prints when loading the schema raises [e]. *)
Definition abort_transcript (e : exception) : list string :=
  [ str_mul "=" 60; "镜像配置文件 Schema 验证"; str_mul "=" 60;
    "❌ 无法加载 schema 文件: " +:+ exc_str e ].

End Script.

(** ** The specification's result type *)

(** The five kinds of per-file result that the specification names, and the
    [(success, message)] pair by which the script represents each. *)
Inductive ValidationResult :=
  | Passed
  | SchemaViolation (message : string)
  | ParseError (message : string)
  | OtherError (message : string)
  | Missing.

Definition render (v : ValidationResult) : bool * string :=
  match v with
  | Passed => (true, "✅ 通过")
  | SchemaViolation message => (false, "❌ 验证失败: " +:+ message)
  | ParseError message => (false, "❌ JSON 解析错误: " +:+ message)
  | OtherError message => (false, "❌ 错误: " +:+ message)
  | Missing => (false, "⚠️ 文件不存在")
  end.

Definition entry (filename : string) (v : ValidationResult) : string * bool * string :=
  (filename, (render v).1, (render v).2).

(** ** Notions used to describe a run *)

(** The node at [p] is a readable file whose bytes decode to a text that
    [json.loads] turns into [data]. *)
Definition holds_json `{Libraries} (σ : gmap path node) (p : path) (data : pyobj) : Prop :=
  ∃ content text,
    σ !! p = Some (RegularFile true content) ∧
    utf8_decode content = inr text ∧
    json_loads text = inr data.

(** The filesystem calls made for a target at [p]: the existence test, then
    the open when the path exists, then the read when the open succeeds. *)
Definition target_calls (σ : gmap path node) (p : path) : list syscall :=
  match σ !! p with
  | None => [SysStat p]
  | Some (RegularFile true _) => [SysStat p; SysOpen p ModeR; SysRead p]
  | Some _ => [SysStat p; SysOpen p ModeR]
  end.

(** The result that the [except] clauses of [validate_file] give for an
    exception raised in its [try] block. *)
Definition raised_as (e : exception) : ValidationResult :=
  if isinstance e ValidationError then SchemaViolation (exc_message e)
  else if isinstance e JSONDecodeError then ParseError (exc_str e)
  else OtherError (exc_str e).

(** The result for the target at [p], read off the filesystem as the
    specification's file validator tells it: absent, not openable, not
    decodable, not parseable, not valid, or passed. *)
Definition expected_result `{Libraries} (σ : gmap path node) (schema : pyobj)
    (p : path) : ValidationResult :=
  match σ !! p with
  | None => Missing
  | Some Directory =>
      OtherError (exc_str (os_error IsADirectoryError "[Errno 21] Is a directory" p))
  | Some (RegularFile false _) =>
      OtherError (exc_str (os_error PermissionError "[Errno 13] Permission denied" p))
  | Some (RegularFile true content) =>
      match utf8_decode content with
      | inl e => raised_as e
      | inr text =>
          match json_loads text with
          | inl e => raised_as e
          | inr data =>
              match jsonschema_validate data schema with
              | inl e => raised_as e
              | inr _ => Passed
              end
          end
      end
  end.

(** [word in text] *)
Definition mentions (word text : string) : bool :=
  match String.index 0 word text with
  | Some _ => true
  | None => false
  end.



(** ** A concrete instance *)

(** A small instance of [Libraries] and some filesystems, on which the
    script can be run: JSON values, a parser that knows a handful of
    documents, and a validator for boolean schemas and the keywords [type],
    [required] and [properties], with the messages of CPython 3.11 and of
    jsonschema. *)
Module Demo.

#[local] Set Warnings "-register-all".

Inductive json :=
  | JNull
  | JBool (b : bool)
  | JNumber (n : Z)
  | JString (s : string)
  | JArray (items : list json)
  | JObject (members : list (string * json)).

Definition dq : string := String (Ascii.ascii_of_nat 34) "".

Definition quoted (s : string) : string := dq +:+ s +:+ dq.

Fixpoint assoc {A} (key : string) (l : list (string * A)) : option A :=
  match l with
  | [] => None
  | (k, a) :: rest => if String.eqb k key then Some a else assoc key rest
  end.

(** The first result of [f] along [l]. *)
Definition list_find_map {A B} (f : A → option B) : list A → option B :=
  fix go l :=
    match l with
    | [] => None
    | a :: rest => match f a with Some b => Some b | None => go rest end
    end.

(** The position of the first byte [b] of [s]. *)
Fixpoint find_byte (b : Ascii.ascii) (s : string) : option nat :=
  match s with
  | EmptyString => None
  | String c rest => if Ascii.eqb c b then Some 0%nat else S <$> find_byte b rest
  end.

(** No UTF-8 text contains the byte 0xff; the message is the codec's. *)
Definition decode (bytes : string) : exception + string :=
  match find_byte (Ascii.ascii_of_nat 255) bytes with
  | Some n =>
      inl (Exc_ UnicodeDecodeError
             ("'utf-8' codec can't decode byte 0xff in position " +:+ pretty n +:+
              ": invalid start byte") "")
  | None => inr bytes
  end.

Definition type_object_text : string :=
  "{" +:+ quoted "type" +:+ ": " +:+ quoted "object" +:+ "}".

(** [{"type": 12}]: JSON, but no schema, since a type is a name. *)
Definition type_12_text : string := "{" +:+ quoted "type" +:+ ": 12}".

(** The schema of a mirror with a registry:
    [{"type": "object", "required": ["registry"],
      "properties": {"registry": {"type": "string"}}}]. *)
Definition registry_schema_text : string :=
  "{" +:+ quoted "type" +:+ ": " +:+ quoted "object" +:+ ", " +:+
  quoted "required" +:+ ": [" +:+ quoted "registry" +:+ "], " +:+
  quoted "properties" +:+ ": {" +:+ quoted "registry" +:+ ": {" +:+
  quoted "type" +:+ ": " +:+ quoted "string" +:+ "}}}".

Definition registry_schema : json :=
  JObject [ ("type", JString "object");
            ("required", JArray [JString "registry"]);
            ("properties", JObject [("registry", JObject [("type", JString "string")])]) ].

(** [{"registry": "https://example.com"}] and [{"registry": 123}]. *)
Definition registry_url_text : string :=
  "{" +:+ quoted "registry" +:+ ": " +:+ quoted "https://example.com" +:+ "}".

Definition registry_123_text : string := "{" +:+ quoted "registry" +:+ ": 123}".

Definition documents : list (string * json) :=
  [ (type_object_text, JObject [("type", JString "object")]);
    (type_12_text, JObject [("type", JNumber 12)]);
    (registry_schema_text, registry_schema);
    (registry_url_text, JObject [("registry", JString "https://example.com")]);
    (registry_123_text, JObject [("registry", JNumber 123)]);
    ("{}", JObject []);
    ("[]", JArray []);
    ("12", JNumber 12);
    ("true", JBool true) ].

(** Texts that are no JSON, with the diagnostic of CPython 3.11. *)
Definition malformed : list (string * string) :=
  [ ("[1,]", "Expecting value: line 1 column 4 (char 3)");
    ("{", "Expecting property name enclosed in double quotes: line 1 column 2 (char 1)") ].

(** [json.loads] on the texts above; any other text is taken to be wrong at
    its first character. *)
Definition loads (text : string) : exception + json :=
  match assoc text documents, assoc text malformed with
  | Some v, _ => inr v
  | None, Some diagnostic => inl (Exc_ JSONDecodeError diagnostic "")
  | None, None => inl (Exc_ JSONDecodeError "Expecting value: line 1 column 1 (char 0)" "")
  end.

(** [repr] of a parsed value. *)
Fixpoint repr (v : json) : string :=
  match v with
  | JNull => "None"
  | JBool true => "True"
  | JBool false => "False"
  | JNumber n => pretty n
  | JString s => "'" +:+ s +:+ "'"
  | JArray items => "[" +:+ String.concat ", " (List.map repr items) +:+ "]"
  | JObject members =>
      "{" +:+
      String.concat ", "
        (List.map (λ kv, match kv with (k, x) => "'" +:+ k +:+ "': " +:+ repr x end)
           members) +:+
      "}"
  end.

(** jsonschema's type checker. *)
Definition is_type (v : json) (t : string) : bool :=
  match v with
  | JNull => String.eqb t "null"
  | JBool _ => String.eqb t "boolean"
  | JNumber _ => String.eqb t "integer" || String.eqb t "number"
  | JString _ => String.eqb t "string"
  | JArray _ => String.eqb t "array"
  | JObject _ => String.eqb t "object"
  end.

(** [check_schema] for the keywords below, with the message of the first
    fault: a schema is a boolean or an object, [type] is a name, [required]
    a list of names, [properties] an object of schemas. *)
Fixpoint schema_fault (schema : json) : option string :=
  match schema with
  | JBool _ => None
  | JObject members =>
      list_find_map
        (λ kv, match kv with
               | ("type", JString _) => None
               | ("type", x) =>
                   Some (repr x +:+ " is not valid under any of the given schemas")
               | ("required", JArray names) =>
                   list_find_map
                     (λ n, match n with
                           | JString _ => None
                           | _ => Some (repr n +:+ " is not of type 'string'")
                           end)
                     names
               | ("required", x) => Some (repr x +:+ " is not of type 'array'")
               | ("properties", JObject props) =>
                   list_find_map (λ px, match px with (_, sub) => schema_fault sub end)
                     props
               | ("properties", x) => Some (repr x +:+ " is not of type 'object'")
               | _ => None
               end)
        members
  | x => Some (repr x +:+ " is not of type 'object', 'boolean'")
  end.

(** The violations of [instance] with the depth of their paths, in the
    order of the schema's keywords: [type], [required] and [properties] as
    jsonschema words them. *)
Fixpoint violations (schema : json) (depth : nat) (instance : json) : list (nat * string) :=
  match schema with
  | JBool false => [(depth, "False schema does not allow " +:+ repr instance)]
  | JObject members =>
      List.flat_map
        (λ kv, match kv with
               | ("type", JString t) =>
                   if is_type instance t then []
                   else [(depth, repr instance +:+ " is not of type '" +:+ t +:+ "'")]
               | ("required", JArray names) =>
                   match instance with
                   | JObject fields =>
                       List.flat_map
                         (λ n, match n with
                               | JString name =>
                                   match assoc name fields with
                                   | Some _ => []
                                   | None => [(depth, "'" +:+ name +:+ "' is a required property")]
                                   end
                               | _ => []
                               end)
                         names
                   | _ => []
                   end
               | ("properties", JObject props) =>
                   match instance with
                   | JObject fields =>
                       List.flat_map
                         (λ px, match px with
                                | (name, sub) =>
                                    match assoc name fields with
                                    | Some x => violations sub (S depth) x
                                    | None => []
                                    end
                                end)
                         props
                   | _ => []
                   end
               | _ => []
               end)
        members
  | _ => []
  end.

(** [best_match]: a violation of least depth, the first of them. *)
Fixpoint best_match (errors : list (nat * string)) : option (nat * string) :=
  match errors with
  | [] => None
  | e :: rest =>
      match best_match rest with
      | Some e' => if (e'.1 <? e.1)%nat then Some e' else Some e
      | None => Some e
      end
  end.

(** [jsonschema.validate] for these schemas.  On a number or [None] as
    schema the library raises a [TypeError] before any check (it looks for
    the key [$schema] in it); a faulty schema is a [SchemaError]; a
    violation is a [ValidationError] whose [message] is that of the best
    match.  [str] of the library's errors goes on with the failed keyword
    and the instance; only its first line, the message, is kept here. *)
Definition check (instance schema : json) : exception + unit :=
  match schema with
  | JNumber _ =>
      inl (Exc_ (UserClass "TypeError") "argument of type 'int' is not iterable" "")
  | JNull =>
      inl (Exc_ (UserClass "TypeError") "argument of type 'NoneType' is not iterable" "")
  | _ =>
      match schema_fault schema with
      | Some message => inl (Exc_ SchemaError message message)
      | None =>
          match best_match (violations schema 0 instance) with
          | Some (_, message) => inl (Exc_ ValidationError message message)
          | None => inr tt
          end
      end
  end.

#[export] Instance libraries : Libraries := {|
  pyobj := json;
  utf8_decode := decode;
  json_loads := loads;
  jsonschema_validate := check
|}.

Definition dir : path := ["configs"].

Definition file (content : string) : node := RegularFile true content.

(** The filesystem with the given schema node and nodes of the five
    targets, in the order of [MIRROR_FILES]; [None] is an absent file. *)
Definition disk (schema : option node) (targets : list (option node)) : gmap path node :=
  list_to_map
    (omap (λ '(name, n), pair (joinpath dir name) <$> n)
       (("ToolsConfiguration.schema.json", schema) :: zip MIRROR_FILES targets)).

Definition boot (σ : gmap path node) : world := World σ [] [].

Definition all_good : list (option node) :=
  [Some (file "{}"); Some (file "{}"); Some (file "{}"); Some (file "{}"); Some (file "{}")].

(** All five targets are objects, and the schema asks for objects. *)
Definition good_world : world := boot (disk (Some (file type_object_text)) all_good).

(** [maven_mirror.json] is absent. *)
Definition missing_world : world :=
  boot (disk (Some (file type_object_text))
          [Some (file "{}"); None; Some (file "{}"); Some (file "{}"); Some (file "{}")]).

(** [npm_mirror.json] holds an array. *)
Definition violation_world : world :=
  boot (disk (Some (file type_object_text))
          [Some (file "{}"); Some (file "{}"); Some (file "[]"); Some (file "{}"); Some (file "{}")]).

(** [brew_mirror.json] has a trailing comma. *)
Definition malformed_world : world :=
  boot (disk (Some (file type_object_text))
          [Some (file "[1,]"); Some (file "{}"); Some (file "{}"); Some (file "{}"); Some (file "{}")]).

(** The schema file holds [{"type": 12}], which is JSON but no schema. *)
Definition bad_schema_world : world := boot (disk (Some (file type_12_text)) all_good).


(** The schema file is absent. *)
Definition no_schema_world : world := boot (disk None all_good).

(** [good_world] after something was printed. *)
Definition later_world : world := World (fs good_world) ["earlier output"] [].

(** [python_pip.json] holds a byte that is no UTF-8. *)
Definition undecodable_world : world :=
  boot (disk (Some (file type_object_text))
          [Some (file "{}"); Some (file "{}"); Some (file "{}"); Some (file "{}");
           Some (file (String (Ascii.ascii_of_nat 255) ""))]).

(** [orbstack_mirror.json] is a directory. *)
Definition directory_world : world :=
  boot (disk (Some (file type_object_text))
          [Some (file "{}"); Some (file "{}"); Some (file "{}"); Some Directory;
           Some (file "{}")]).

(** [good_world] with one more file in the directory. *)
Definition cluttered_world : world :=
  boot (<[ joinpath dir "notes.txt" := file "not JSON at all" ]> (fs good_world)).

End Demo.

(** ** Lemmas on computations that only read *)

Lemma extend_nil w : extend w [] [] = w.
Proof. destruct w; unfold extend; simpl. by rewrite !app_nil_r. Qed.

Lemma extend_extend w o1 c1 o2 c2 :
  extend (extend w o1 c1) o2 c2 = extend w (o1 ++ o2) (c1 ++ c2).
Proof. unfold extend; simpl. by rewrite !app_assoc. Qed.

Lemma reads_only_fs {A} (m : M A) w : reads_only m → fs (m w).2 = fs w.
Proof. intros Hm. destruct (Hm w) as (r & out & calls & _ & -> & _). done. Qed.

Lemma reads_only_outcome {A} (m : M A) w1 w2 :
  reads_only m → fs w1 = fs w2 → (m w1).1 = (m w2).1.
Proof.
  intros Hm Hfs.
  destruct (Hm w1) as (r1 & o1 & c1 & H1 & -> & _).
  destruct (Hm w2) as (r2 & o2 & c2 & H2 & -> & _).
  rewrite Hfs in H1. rewrite H1 in H2. simpl. congruence.
Qed.

Lemma reads_only_ret {A} (a : A) : reads_only (mret a).
Proof.
  intros w. exists (Return a), [], []. rewrite extend_nil. by repeat split.
Qed.

Lemma reads_only_raise {A} e : reads_only (@raise A e).
Proof.
  intros w. exists (Raise (Exc e)), [], []. rewrite extend_nil. by repeat split.
Qed.

Lemma reads_only_sys_exit {A} code : reads_only (@sys_exit A code).
Proof.
  intros w. exists (Raise (SystemExit code)), [], []. rewrite extend_nil.
  by repeat split.
Qed.

Lemma reads_only_lift {A} (r : exception + A) : reads_only (lift r).
Proof. destruct r; [apply reads_only_raise | apply reads_only_ret]. Qed.

Lemma reads_only_print s : reads_only (print s).
Proof.
  intros w. exists (Return tt), [s], []. unfold print, extend; simpl.
  by rewrite app_nil_r.
Qed.

Lemma reads_only_path_exists p : reads_only (path_exists p).
Proof.
  intros w. exists (Return (bool_decide (is_Some (fs w !! p)))), [], [SysStat p].
  unfold path_exists, log, extend; simpl. rewrite app_nil_r.
  repeat split. by repeat constructor.
Qed.

Lemma reads_only_py_open p : reads_only (py_open p ModeR).
Proof.
  intros w.
  exists (py_open p ModeR w).1, [], [SysOpen p ModeR].
  unfold py_open, log, extend; simpl. rewrite app_nil_r.
  destruct (fs w !! p) as [[[] c|]|]; simpl; repeat split; by repeat constructor.
Qed.

(** After a computation that reads only, either stop with an outcome or
    go on with a computation that reads only: the whole reads only, the
    effects concatenated.  Both [≫=] and [try_except] are of this shape. *)
Lemma reads_only_then {A B} (m : M A) (next : outcome A → M B + outcome B) :
  reads_only m →
  (∀ r h, next r = inl h → reads_only h) →
  reads_only (λ w, match next (m w).1 with
                   | inl h => h (m w).2
                   | inr r' => (r', (m w).2)
                   end).
Proof.
  intros Hm Hnext w.
  destruct (Hm w) as (r & o & c & H0 & Hw & Hc). rewrite H0, Hw; simpl.
  destruct (next r) as [h|r'] eqn:En.
  - specialize (Hnext r h En).
    destruct (Hnext (World (fs w) o c)) as (ra & oa & ca & Ha0 & Ha & Hca).
    destruct (Hnext (extend w o c)) as (rb & ob & cb & Hb0 & Hb & _).
    simpl in Ha0, Hb0. rewrite Ha0 in Hb0. injection Hb0 as <- <- <-.
    exists ra, (o ++ oa), (c ++ ca).
    rewrite Ha, Hb, extend_extend.
    split; [done|]. split; [done|]. by apply Forall_app.
  - by exists r', o, c.
Qed.

Lemma reads_only_bind {A B} (m : M A) (k : A → M B) :
  reads_only m → (∀ a, reads_only (k a)) → reads_only (m ≫= k).
Proof.
  intros Hm Hk.
  pose proof (reads_only_then m
    (λ r, match r with Return a => inl (k a) | Raise x => inr (Raise x) end)
    Hm) as Hthen.
  intros w. destruct Hthen with (w := w) as (r & o & c & H1 & H2 & H3).
  { intros [a|x] h [= <-]. apply Hk. }
  exists r, o, c. split; [|split; [|done]].
  - rewrite <- H1. unfold mbind, M_bind.
    destruct (m (World (fs w) [] [])) as [[a|x] w']; done.
  - rewrite <- H2. unfold mbind, M_bind.
    destruct (m w) as [[a|x] w']; done.
Qed.

Lemma dispatch_reads_only {A} (clauses : list (pyclass * (exception → M A))) e h :
  Forall (λ ch, ∀ e', reads_only (ch.2 e')) clauses →
  dispatch clauses e = Some h → reads_only h.
Proof.
  induction 1 as [|[cl hd] rest Hhd _ IH]; simpl; [done|].
  destruct (isinstance e cl); [by intros [= <-] | exact IH].
Qed.

Lemma reads_only_try_except {A} (body : M A) clauses :
  reads_only body →
  Forall (λ ch, ∀ e, reads_only (ch.2 e)) clauses →
  reads_only (try_except body clauses).
Proof.
  intros Hb Hc.
  pose proof (reads_only_then body
    (λ r, match r with
          | Raise (Exc e) =>
              match dispatch clauses e with
              | Some h => inl h
              | None => inr r
              end
          | _ => inr r
          end) Hb) as Hthen.
  intros w. destruct Hthen with (w := w) as (r & o & c & H1 & H2 & H3).
  { intros [a|[e|code]] h Hd; try done.
    destruct (dispatch clauses e) as [h'|] eqn:Hh; [|done].
    injection Hd as <-. by eapply dispatch_reads_only. }
  exists r, o, c. split; [|split; [|done]].
  - rewrite <- H1. unfold try_except.
    destruct (body (World (fs w) [] [])) as [[a|[e|code]] w']; simpl;
      first [done | by destruct (dispatch clauses e)].
  - rewrite <- H2. unfold try_except.
    destruct (body w) as [[a|[e|code]] w']; simpl;
      first [done | by destruct (dispatch clauses e)].
Qed.

Lemma reads_only_file_read `{Libraries} f : reads_only (file_read f).
Proof.
  intros w. unfold file_read, log; simpl.
  destruct (fs w !! f) as [[rd content|]|].
  - destruct (utf8_decode content) as [e|text]; simpl;
      [exists (Raise (Exc e)) | exists (Return text)];
      exists [], [SysRead f]; unfold raise, mret, M_ret, extend; simpl;
      rewrite app_nil_r; repeat split; by repeat constructor.
  - eexists _, [], [SysRead f]. unfold extend; simpl. rewrite app_nil_r.
    repeat split; by repeat constructor.
  - eexists _, [], [SysRead f]. unfold extend; simpl. rewrite app_nil_r.
    repeat split; by repeat constructor.
Qed.

Create HintDb reads_only.
#[export] Hint Resolve reads_only_ret reads_only_raise reads_only_sys_exit
  reads_only_lift reads_only_print reads_only_path_exists reads_only_py_open
  reads_only_file_read : reads_only.

Ltac reads_only :=
  repeat first
    [ progress eauto with reads_only
    | apply reads_only_bind; [|intros ?]
    | apply reads_only_try_except; [|repeat constructor; simpl; intros ?]
    | match goal with
      | |- reads_only (if ?b then _ else _) => destruct b
      | |- reads_only (let '(_, _) := ?p in _) => destruct p
      | |- reads_only (match ?p with (_, _) => _ end) => destruct p
      end ].

(** ** Properties of the script's functions *)

Lemma isinstance_Exception e : isinstance e Exception = true.
Proof. destruct e as [[] s m]; reflexivity. Qed.

Ltac unfold_script :=
  unfold load_schema, check_target, check_target_with, validate_file,
    try_except, json_load,
    file_read, validate, py_open, path_exists, mbind, M_bind, mret, M_ret,
    lift, raise, log, extend;
  simpl.

Ltac case_lib :=
  match goal with
  | E : ?σ !! ?p = _ |- context [?σ !! ?p] => rewrite E; simpl
  | E : utf8_decode ?c = _ |- context [utf8_decode ?c] => rewrite E; simpl
  | E : json_loads ?t = _ |- context [json_loads ?t] => rewrite E; simpl
  | E : jsonschema_validate ?d ?s = _ |- context [jsonschema_validate ?d ?s] =>
      rewrite E; simpl
  | E : isinstance ?e ?c = _ |- context [isinstance ?e ?c] => rewrite E; simpl
  | |- context [utf8_decode ?c] => destruct (utf8_decode c) as [?e|?text] eqn:?; simpl
  | |- context [json_loads ?t] => destruct (json_loads t) as [?e|?data] eqn:?; simpl
  | |- context [jsonschema_validate ?d ?s] =>
      destruct (jsonschema_validate d s) as [?e|[]] eqn:?; simpl
  | |- context [isinstance ?e Exception] => rewrite (isinstance_Exception e); simpl
  | |- context [isinstance ?e ?c] => destruct (isinstance e c) eqn:?; simpl
  end.

Ltac calls_ok :=
  repeat apply Forall_cons_2; try apply Forall_nil_2; unfold touches; auto.

Ltac norm_world := rewrite ?extend_extend; simpl; rewrite ?app_nil_r.

Section ScriptProperties.
Context `{Libraries}.
Variable CONFIG_DIR : path.

Lemma reads_only_json_load f : reads_only (json_load f).
Proof. unfold json_load. reads_only. Qed.

Lemma reads_only_load_schema : reads_only (load_schema CONFIG_DIR).
Proof. unfold load_schema. pose proof reads_only_json_load. reads_only. Qed.

Lemma reads_only_validate_file schema p : reads_only (validate_file schema p).
Proof.
  unfold validate_file, validate. pose proof reads_only_json_load. reads_only.
Qed.

Lemma reads_only_check_target schema filename :
  reads_only (check_target CONFIG_DIR schema filename).
Proof.
  unfold check_target, check_target_with.
  pose proof reads_only_validate_file. reads_only.
Qed.

Lemma reads_only_validate_targets schema files results :
  reads_only (validate_targets CONFIG_DIR schema files results).
Proof.
  unfold validate_targets.
  revert results. induction files as [|f files IH]; intros results; simpl.
  - reads_only.
  - pose proof reads_only_check_target as Hbody.
    unfold check_target in Hbody. reads_only.
Qed.

Lemma reads_only_report results all_passed : reads_only (report results all_passed).
Proof.
  revert all_passed. induction results as [|r results IH]; intros b; simpl;
    reads_only.
Qed.

Lemma reads_only_main : reads_only (main CONFIG_DIR).
Proof.
  unfold main, main_with.
  pose proof reads_only_load_schema.
  pose proof reads_only_validate_targets as Hloop. unfold validate_targets in Hloop.
  pose proof reads_only_report. reads_only.
Qed.

Lemma reads_only_script : reads_only (script CONFIG_DIR).
Proof.
  unfold script, script_with. pose proof reads_only_main as Hmain.
  unfold main in Hmain. reads_only.
Qed.

Lemma bind_return {A B} (m : M A) (k : A → M B) w a w' :
  m w = (Return a, w') → (m ≫= k) w = k a w'.
Proof. intros Hm. unfold mbind, M_bind. by rewrite Hm. Qed.

Lemma bind_raise {A B} (m : M A) (k : A → M B) w r w' :
  m w = (Raise r, w') → (m ≫= k) w = (Raise r, w').
Proof. intros Hm. unfold mbind, M_bind. by rewrite Hm. Qed.

(** [load_schema] prints nothing and touches the schema file only. *)
Lemma load_schema_world w :
  ∃ calls, (load_schema CONFIG_DIR w).2 = extend w [] calls ∧
    Forall (touches (SCHEMA_FILE CONFIG_DIR)) calls.
Proof.
  unfold_script.
  destruct (fs w !! SCHEMA_FILE CONFIG_DIR) as [[[] c|]|] eqn:E; simpl;
    repeat case_lib; rewrite <- ?app_assoc, ?app_nil_r;
    eexists; (split; [reflexivity|]); calls_ok.
Qed.

Lemma load_schema_no_exit w code :
  (load_schema CONFIG_DIR w).1 ≠ Raise (SystemExit code).
Proof.
  unfold_script.
  destruct (fs w !! SCHEMA_FILE CONFIG_DIR) as [[[] c|]|] eqn:E; simpl;
    repeat case_lib; done.
Qed.

(** The loop body never raises, prints nothing, touches its own file only,
    and its tuple is [target_result] of the filesystem. *)
Lemma check_target_run schema filename w :
  ∃ calls,
    check_target CONFIG_DIR schema filename w =
      (Return (target_result CONFIG_DIR schema (fs w) filename), extend w [] calls) ∧
    Forall (touches (joinpath CONFIG_DIR filename)) calls.
Proof.
  unfold target_result. unfold_script.
  destruct (fs w !! joinpath CONFIG_DIR filename) as [[[] c|]|] eqn:E; simpl;
    repeat case_lib; rewrite <- ?app_assoc, ?app_nil_r;
    eexists; (split; [reflexivity|]); calls_ok.
Qed.

(** *** Composing runs *)

Lemma runs_ret {A} (a : A) w : runs (mret a) w (Return a) [] [].
Proof. unfold runs. by rewrite extend_nil. Qed.

Lemma runs_print s w : runs (print s) w (Return tt) [s] [].
Proof. unfold runs, print, extend. by rewrite app_nil_r. Qed.

Lemma runs_sys_exit {A} code w : runs (@sys_exit A code) w (Raise (SystemExit code)) [] [].
Proof. unfold runs, sys_exit. by rewrite extend_nil. Qed.

Lemma runs_bind {A B} (m : M A) (k : A → M B) w a r o1 c1 o2 c2 :
  runs m w (Return a) o1 c1 →
  runs (k a) (extend w o1 c1) r o2 c2 →
  runs (m ≫= k) w r (o1 ++ o2) (c1 ++ c2).
Proof.
  unfold runs. intros Hm Hk.
  by rewrite (bind_return _ _ _ _ _ Hm), Hk, extend_extend.
Qed.

Lemma runs_bind_raise {A B} (m : M A) (k : A → M B) w x o c :
  runs m w (Raise x) o c → runs (m ≫= k) w (Raise x) o c.
Proof. unfold runs. intros Hm. by rewrite (bind_raise _ _ _ _ _ Hm). Qed.

Lemma runs_try_return {A} (body : M A) clauses w a o c :
  runs body w (Return a) o c → runs (try_except body clauses) w (Return a) o c.
Proof. unfold runs, try_except. by intros ->. Qed.

Lemma runs_try_catch {A} (body : M A) clauses w e h r o1 c1 o2 c2 :
  runs body w (Raise (Exc e)) o1 c1 →
  dispatch clauses e = Some h →
  runs h (extend w o1 c1) r o2 c2 →
  runs (try_except body clauses) w r (o1 ++ o2) (c1 ++ c2).
Proof.
  unfold runs, try_except. intros -> -> ->. by rewrite extend_extend.
Qed.

Lemma runs_eq {A} (m : M A) w r o c o' c' :
  runs m w r o c → o = o' → c = c' → runs m w r o' c'.
Proof. by intros ? <- <-. Qed.

Lemma touches_read_only p c : touches p c → read_only_call c.
Proof. by intros [->|[->| ->]]. Qed.

(** *** The loops and [main] *)

Lemma load_schema_runs w r :
  (load_schema CONFIG_DIR w).1 = r →
  ∀ w', fs w' = fs w →
    ∃ calls, runs (load_schema CONFIG_DIR) w' r [] calls ∧
             Forall (touches (SCHEMA_FILE CONFIG_DIR)) calls.
Proof.
  intros Hr w' Hfs.
  destruct (load_schema_world w') as (calls & Hw & Hcalls).
  exists calls. split; [|done].
  unfold runs. rewrite <- Hw, <- Hr.
  rewrite (reads_only_outcome _ w w' reads_only_load_schema) by done.
  by destruct (load_schema CONFIG_DIR w').
Qed.

Lemma validate_targets_runs schema files :
  ∀ results w, ∃ calls,
    runs (validate_targets CONFIG_DIR schema files results) w
      (Return (results ++ (target_result CONFIG_DIR schema (fs w) <$> files)))
      [] calls ∧
    Forall (λ c, ∃ f, f ∈ files ∧ touches (joinpath CONFIG_DIR f) c) calls.
Proof.
  induction files as [|f files IH]; intros results w; simpl.
  - exists []. rewrite app_nil_r. split; [apply runs_ret | constructor].
  - destruct (check_target_run schema f w) as (c1 & Hf & Hc1).
    destruct (IH (results ++ [target_result CONFIG_DIR schema (fs w) f])
                 (extend w [] c1)) as (c2 & Hrest & Hc2).
    exists (c1 ++ c2). split.
    + change (@nil string) with (@nil string ++ @nil string).
      eapply runs_bind; [exact Hf|].
      simpl in Hrest. by rewrite <- app_assoc in Hrest.
    + apply Forall_app. split.
      * eapply Forall_impl; [exact Hc1|]. intros c Hc. exists f.
        split; [left|done].
      * eapply Forall_impl; [exact Hc2|]. intros c (g & Hg & Hc). exists g.
        split; [by right|done].
Qed.

Lemma report_runs results :
  ∀ all_passed w,
    runs (report results all_passed) w
      (Return (all_passed && forallb success results))
      (report_line <$> results) [].
Proof.
  induction results as [|[[filename ok] message] results IH]; intros b w.
  - simpl. rewrite andb_true_r. apply runs_ret.
  - cbn [report forallb]. rewrite fmap_cons.
    replace (b && (success (filename, ok, message) && forallb success results))
      with ((if negb ok then false else b) && forallb success results)
      by (unfold success; simpl; by destruct ok, b).
    eapply runs_eq; [eapply runs_bind; [apply runs_print | apply IH] | done | done].
Qed.

Lemma path_name_SCHEMA_FILE :
  path_name (SCHEMA_FILE CONFIG_DIR) = "ToolsConfiguration.schema.json".
Proof. unfold path_name, SCHEMA_FILE, joinpath. by rewrite last_snoc. Qed.

(** [main] from a run of [load_schema] after the banner and a run of the
    loop after the line that announces the schema. *)
Lemma main_loaded_from w schema results c1 c2 :
  runs (load_schema CONFIG_DIR)
    (extend w [str_mul "=" 60; "镜像配置文件 Schema 验证"; str_mul "=" 60] [])
    (Return schema) [] c1 →
  runs (validate_targets CONFIG_DIR schema MIRROR_FILES [])
    (extend w [str_mul "=" 60; "镜像配置文件 Schema 验证"; str_mul "=" 60;
               "✓ 已加载 schema: ToolsConfiguration.schema.json" +:+ nl] c1)
    (Return results) [] c2 →
  runs (main CONFIG_DIR) w
    (Return (if forallb success results then 0 else 1))
    (report_transcript results) (c1 ++ c2).
Proof.
  intros Hl Hv.
  unfold main, report_transcript.
  destruct (forallb success results) eqn:Hall;
    (eapply runs_eq;
     [ do 3 (eapply runs_bind; [apply runs_print|]); norm_world;
       eapply runs_bind;
         [ eapply runs_try_return; eapply runs_bind; [exact Hl|];
           rewrite path_name_SCHEMA_FILE;
           eapply runs_bind; [apply runs_print | apply runs_ret] |];
       norm_world;
       eapply runs_bind; [exact Hv|];
       do 2 (eapply runs_bind; [apply runs_print|]);
       eapply runs_bind; [apply report_runs|];
       eapply runs_bind; [apply runs_print|];
       rewrite Hall; simpl;
       eapply runs_bind; [apply runs_print | apply runs_ret]
     | simpl; by rewrite <- ?app_assoc
     | simpl; by rewrite ?app_nil_r ]).
Qed.

(** [main] when the schema loads. *)
Lemma main_loaded w schema :
  (load_schema CONFIG_DIR w).1 = Return schema →
  let results := (target_result CONFIG_DIR schema (fs w) <$> MIRROR_FILES) in
  ∃ calls,
    runs (main CONFIG_DIR) w
      (Return (if forallb success results then 0 else 1))
      (report_transcript results) calls ∧
    Forall read_only_call calls.
Proof.
  intros Hload results.
  destruct (load_schema_runs w _ Hload
              (extend w [str_mul "=" 60; "镜像配置文件 Schema 验证"; str_mul "=" 60] []))
    as (c1 & Hl & Hc1); [done|].
  destruct (validate_targets_runs schema MIRROR_FILES []
              (extend w [str_mul "=" 60; "镜像配置文件 Schema 验证"; str_mul "=" 60;
                         "✓ 已加载 schema: ToolsConfiguration.schema.json" +:+ nl] c1))
    as (c2 & Hv & Hc2).
  simpl fs in Hv. rewrite app_nil_l in Hv. fold results in Hv.
  exists (c1 ++ c2). split.
  - by apply main_loaded_from with schema.
  - apply Forall_app. split.
    + eapply Forall_impl; [exact Hc1|]. apply touches_read_only.
    + eapply Forall_impl; [exact Hc2|]. intros c (f & _ & Hc).
      by eapply touches_read_only.
Qed.

(** [main] when loading the schema raises. *)
Lemma main_aborts w e :
  (load_schema CONFIG_DIR w).1 = Raise (Exc e) →
  ∃ calls,
    runs (main CONFIG_DIR) w (Raise (SystemExit 1)) (abort_transcript e) calls ∧
    Forall (touches (SCHEMA_FILE CONFIG_DIR)) calls.
Proof.
  intros Hload.
  destruct (load_schema_runs w _ Hload
              (extend w [str_mul "=" 60; "镜像配置文件 Schema 验证"; str_mul "=" 60] []))
    as (c1 & Hl & Hc1); [done|].
  exists c1. split; [|done].
  unfold main, abort_transcript. eapply runs_eq.
  { do 3 (eapply runs_bind; [apply runs_print|]). norm_world.
    apply runs_bind_raise. eapply runs_try_catch.
    - apply runs_bind_raise. exact Hl.
    - simpl. by rewrite isinstance_Exception.
    - eapply runs_bind; [apply runs_print | apply runs_sys_exit]. }
  - done.
  - simpl. by rewrite ?app_nil_r.
Qed.

(** The exit status, by cases on the outcome of [load_schema]. *)
Lemma exit_status_cases w :
  exit_status CONFIG_DIR w =
    match (load_schema CONFIG_DIR w).1 with
    | Return schema =>
        if forallb success ((target_result CONFIG_DIR schema (fs w) <$> MIRROR_FILES))
        then 0 else 1
    | Raise _ => 1
    end.
Proof.
  unfold exit_status, exit_status_with, script, script_with.
  change (main_with CONFIG_DIR path_exists) with (main CONFIG_DIR).
  destruct (load_schema CONFIG_DIR w).1 as [schema|[e|code]] eqn:Hload.
  - destruct (main_loaded w schema Hload) as (calls & Hmain & _).
    rewrite (bind_return _ _ _ _ _ Hmain). done.
  - destruct (main_aborts w e Hload) as (calls & Hmain & _).
    by rewrite (bind_raise _ _ _ _ _ Hmain).
  - by apply load_schema_no_exit in Hload.
Qed.

(** *** The tuple of one target *)

Lemma check_target_outcome schema filename w :
  (check_target CONFIG_DIR schema filename w).1 =
    Return (target_result CONFIG_DIR schema (fs w) filename).
Proof. destruct (check_target_run schema filename w) as (calls & -> & _). done. Qed.

(** Every tuple is one of the five kinds of result, for its own file. *)
Lemma target_result_kind schema σ filename :
  ∃ v, target_result CONFIG_DIR schema σ filename = entry filename v.
Proof.
  unfold target_result. unfold_script.
  destruct (σ !! joinpath CONFIG_DIR filename) as [[[] c|]|] eqn:E; simpl;
    repeat case_lib;
    first [ by exists Passed | by exists Missing
          | by eexists (SchemaViolation _) | by eexists (ParseError _)
          | by eexists (OtherError _) ].
Qed.

Lemma success_entry filename v : success (entry filename v) = true ↔ v = Passed.
Proof. destruct v; simpl; split; done. Qed.

(** The tuple of a target depends on the node at its own path only. *)
Lemma target_result_local schema σ1 σ2 filename :
  σ1 !! joinpath CONFIG_DIR filename = σ2 !! joinpath CONFIG_DIR filename →
  target_result CONFIG_DIR schema σ1 filename =
  target_result CONFIG_DIR schema σ2 filename.
Proof.
  intros Hnode. symmetry in Hnode. unfold target_result. unfold_script.
  destruct (σ1 !! joinpath CONFIG_DIR filename) as [[[] c|]|] eqn:E; simpl;
    repeat case_lib; done.
Qed.

(** [load_schema] returns exactly when the schema file is a readable file
    whose bytes decode to a text that [json.loads] accepts. *)
Lemma load_schema_return_iff w schema :
  (load_schema CONFIG_DIR w).1 = Return schema ↔
  ∃ content text,
    fs w !! SCHEMA_FILE CONFIG_DIR = Some (RegularFile true content) ∧
    utf8_decode content = inr text ∧ json_loads text = inr schema.
Proof.
  split.
  - unfold_script.
    destruct (fs w !! SCHEMA_FILE CONFIG_DIR) as [[[] c|]|] eqn:E; simpl;
      try done.
    rewrite E; simpl.
    destruct (utf8_decode c) as [e|text] eqn:Hd; simpl; [done|].
    destruct (json_loads text) as [e|data] eqn:Hp; simpl; [done|].
    intros [= <-]. by exists c, text.
  - intros (content & text & E & Hd & Hp). unfold_script.
    by repeat case_lib.
Qed.

Lemma validate_file_world schema p w :
  ∃ calls, (validate_file schema p w).2 = extend w [] calls ∧
           Forall read_only_call calls.
Proof.
  unfold_script.
  destruct (fs w !! p) as [[[] c|]|] eqn:E; simpl; repeat case_lib;
    rewrite <- ?app_assoc, ?app_nil_r;
    eexists; (split; [reflexivity|]); by repeat constructor.
Qed.

Lemma joinpath_inj dir a b : joinpath dir a = joinpath dir b → a = b.
Proof. unfold joinpath. intros Hab. apply app_inv_head in Hab. congruence. Qed.

Lemma SCHEMA_FILE_not_target filename :
  filename ∈ MIRROR_FILES → joinpath CONFIG_DIR filename ≠ SCHEMA_FILE CONFIG_DIR.
Proof.
  intros Hin Heq. apply joinpath_inj in Heq. subst filename.
  unfold MIRROR_FILES in Hin. rewrite !elem_of_cons, elem_of_nil in Hin.
  by destruct Hin as [?|[?|[?|[?|[?|[]]]]]].
Qed.

Lemma touches_inj p q c : touches p c → touches q c → p = q.
Proof. intros [->|[->| ->]] [?|[?|?]]; congruence. Qed.

(** A failed target makes the exit status 1. *)
Lemma exit_status_failed_target w filename :
  filename ∈ MIRROR_FILES →
  (∀ schema, (load_schema CONFIG_DIR w).1 = Return schema →
     success (target_result CONFIG_DIR schema (fs w) filename) = false) →
  exit_status CONFIG_DIR w = 1.
Proof.
  intros Hin Hfail. rewrite exit_status_cases.
  destruct (load_schema CONFIG_DIR w).1 as [schema|r]; [|done].
  destruct (forallb _ _) eqn:Hall; [|done].
  apply Is_true_true, forallb_True in Hall.
  rewrite Forall_fmap, Forall_forall in Hall.
  specialize (Hall filename Hin). simpl in Hall.
  rewrite Hfail in Hall; done.
Qed.

Lemma isinstance_JSONDecodeError_not_ValidationError e :
  isinstance e JSONDecodeError = true → isinstance e ValidationError = false.
Proof. destruct e as [[] s m]; done. Qed.

End ScriptProperties.

(** ** The claims of the specification *)

Section Claims.
Context `{Libraries}.
Variable CONFIG_DIR : path.

(** C1.  The exit status is 0 if and only if the schema loads and the tuple
    of every target file is [Passed]; it is 0 or 1; it is 1 when loading the
    schema raises, and 1 when the tuple of some target is a result other
    than [Passed] (schema violation, parse error, other error, missing). *)
Theorem exit_status_zero_iff_all_passed (w : world) :
  (exit_status CONFIG_DIR w = 0 ↔
     ∃ schema,
       (load_schema CONFIG_DIR w).1 = Return schema ∧
       ∀ filename, filename ∈ MIRROR_FILES →
         (check_target CONFIG_DIR schema filename w).1 =
           Return (entry filename Passed)) ∧
  (exit_status CONFIG_DIR w = 0 ∨ exit_status CONFIG_DIR w = 1) ∧
  (∀ r, (load_schema CONFIG_DIR w).1 = Raise r → exit_status CONFIG_DIR w = 1) ∧
  (∀ schema filename v,
     (load_schema CONFIG_DIR w).1 = Return schema →
     filename ∈ MIRROR_FILES →
     (check_target CONFIG_DIR schema filename w).1 = Return (entry filename v) →
     v ≠ Passed →
     exit_status CONFIG_DIR w = 1).
Proof.
  rewrite exit_status_cases.
  destruct (load_schema CONFIG_DIR w).1 as [schema|r] eqn:Hload.
  - assert (Hall : forallb success
                     (target_result CONFIG_DIR schema (fs w) <$> MIRROR_FILES) = true ↔
                   ∀ filename, filename ∈ MIRROR_FILES →
                     (check_target CONFIG_DIR schema filename w).1 =
                       Return (entry filename Passed)).
    { rewrite <- Is_true_true, forallb_True, Forall_fmap, Forall_forall.
      split; intros Hall filename Hin; specialize (Hall filename Hin);
        rewrite check_target_outcome in *; simpl in *.
      - destruct (target_result_kind CONFIG_DIR schema (fs w) filename) as [v Hv].
        rewrite Hv in *. apply Is_true_true, success_entry in Hall. by subst v.
      - injection Hall as ->. done. }
    repeat split.
    + intros Hzero. exists schema. split; [done|].
      destruct (forallb _ _); [by apply Hall | done].
    + intros (schema' & [= <-] & Hpassed). apply Hall in Hpassed.
      by rewrite Hpassed.
    + destruct (forallb _ _); auto.
    + done.
    + intros schema' filename v [= <-] Hin Hv Hne.
      destruct (forallb _ _); [|done].
      rewrite (proj1 Hall eq_refl filename Hin) in Hv.
      injection Hv as Hs Hm. destruct v; done.
  - repeat split; try done; auto.
    intros (schema & ? & _). done.
Qed.

(** C2.  If the schema file is not a readable file holding valid JSON,
    loading raises an exception [e]; the script then prints the banner and
    the schema-load error for [e] and nothing else, ends with
    [SystemExit(1)], so exit status 1, and has called the filesystem on the
    schema file only: no target file was looked at. *)
Theorem schema_load_failure_aborts (w : world) :
  ¬ (∃ content text schema,
       fs w !! SCHEMA_FILE CONFIG_DIR = Some (RegularFile true content) ∧
       utf8_decode content = inr text ∧ json_loads text = inr schema) →
  ∃ e calls,
    (load_schema CONFIG_DIR w).1 = Raise (Exc e) ∧
    runs (script CONFIG_DIR) w (Raise (SystemExit 1)) (abort_transcript e) calls ∧
    exit_status CONFIG_DIR w = 1 ∧
    Forall (touches (SCHEMA_FILE CONFIG_DIR)) calls ∧
    ∀ filename, filename ∈ MIRROR_FILES →
      Forall (λ c, ¬ touches (joinpath CONFIG_DIR filename) c) calls.
Proof.
  intros Hbad.
  destruct (load_schema CONFIG_DIR w).1 as [schema|[e|code]] eqn:Hload.
  - exfalso. apply Hbad. apply load_schema_return_iff in Hload.
    destruct Hload as (content & text & ?). by exists content, text, schema.
  - destruct (main_aborts CONFIG_DIR w e Hload) as (calls & Hmain & Hcalls).
    exists e, calls. repeat split; try done.
    + by apply runs_bind_raise.
    + rewrite exit_status_cases. by rewrite Hload.
    + intros filename Hin. eapply Forall_impl; [exact Hcalls|].
      intros c Hs Hf. eapply SCHEMA_FILE_not_target; [exact Hin|].
      by eapply touches_inj.
  - by apply load_schema_no_exit in Hload.
Qed.


(** C5.  If the path of a target is absent from the filesystem, the loop
    body returns the [Missing] tuple for it after the existence test alone
    (it raises nothing and opens nothing), and when the target is one of
    [MIRROR_FILES] the exit status is 1. *)
Theorem missing_target_is_reported (w : world) (schema : pyobj) (filename : string) :
  fs w !! joinpath CONFIG_DIR filename = None →
  runs (check_target CONFIG_DIR schema filename) w
    (Return (entry filename Missing)) [] [SysStat (joinpath CONFIG_DIR filename)] ∧
  (filename ∈ MIRROR_FILES → exit_status CONFIG_DIR w = 1).
Proof.
  intros Hnone. split.
  - unfold runs. unfold_script. by rewrite Hnone, app_nil_r.
  - intros Hin. apply exit_status_failed_target with filename; [done|].
    intros schema' _. unfold target_result. unfold_script. by rewrite Hnone.
Qed.


(** C7.  If a target among [MIRROR_FILES] is a readable file whose text
    [json.loads] rejects with a [JSONDecodeError] [e], then, whatever the
    schema, the tuple of the target is [ParseError] with the message
    [str(e)], and the exit status is 1. *)
Theorem malformed_json_is_reported (w : world) (schema : pyobj)
    (filename content text : string) (e : exception) :
  filename ∈ MIRROR_FILES →
  fs w !! joinpath CONFIG_DIR filename = Some (RegularFile true content) →
  utf8_decode content = inr text →
  json_loads text = inl e →
  isinstance e JSONDecodeError = true →
  (check_target CONFIG_DIR schema filename w).1 =
    Return (entry filename (ParseError (exc_str e))) ∧
  exit_status CONFIG_DIR w = 1.
Proof.
  intros Hin Hnode Hdec Hparse Hcls.
  pose proof (isinstance_JSONDecodeError_not_ValidationError e Hcls) as Hnot.
  assert (Hres : ∀ schema', target_result CONFIG_DIR schema' (fs w) filename =
                            entry filename (ParseError (exc_str e))).
  { intros schema'. unfold target_result. unfold_script. by repeat case_lib. }
  split.
  - by rewrite check_target_outcome, Hres.
  - apply exit_status_failed_target with filename; [done|].
    intros schema' _. by rewrite Hres.
Qed.

(** C8.  A run changes no file: the world after the script is the initial
    world with lines appended to the output and calls appended to the log,
    every call being an existence test, an open for reading or a read, and
    the filesystem is the initial one.  Loading the schema and validating a
    file do the same and print nothing. *)
Theorem script_only_reads (w : world) :
  (∃ out calls,
     (script CONFIG_DIR w).2 = extend w out calls ∧ Forall read_only_call calls) ∧
  fs (script CONFIG_DIR w).2 = fs w ∧
  (∃ calls,
     (load_schema CONFIG_DIR w).2 = extend w [] calls ∧
     Forall read_only_call calls) ∧
  (∀ schema file_path, ∃ calls,
     (validate_file schema file_path w).2 = extend w [] calls ∧
     Forall read_only_call calls).
Proof.
  repeat split.
  - destruct (reads_only_script CONFIG_DIR w) as (r & out & calls & _ & Hw & Hc).
    exists out, calls. by rewrite Hw.
  - apply reads_only_fs, reads_only_script.
  - destruct (load_schema_world CONFIG_DIR w) as (calls & Hw & Hc).
    exists calls. split; [done|]. eapply Forall_impl; [exact Hc|].
    apply touches_read_only.
  - intros schema file_path. apply validate_file_world.
Qed.

(** C9.  If the schema file is a readable file whose text parses to a JSON
    value that jsonschema rejects as a schema (validating any instance
    against it raises a [SchemaError]), then loading the schema returns that
    value, [main] is not aborted (it returns 1 after printing the report of
    five tuples), and the tuple of every target that is a readable,
    parseable file is [OtherError] with the message [str(e)] of the
    [SchemaError] raised for it. *)
Theorem malformed_schema_gives_other_error (w : world)
    (content text : string) (schema : pyobj) :
  fs w !! SCHEMA_FILE CONFIG_DIR = Some (RegularFile true content) →
  utf8_decode content = inr text →
  json_loads text = inr schema →
  (∀ data, ∃ e, jsonschema_validate data schema = inl e ∧ exc_class e = SchemaError) →
  (load_schema CONFIG_DIR w).1 = Return schema ∧
  (∃ results calls,
     runs (main CONFIG_DIR) w (Return 1) (report_transcript results) calls ∧
     length results = 5%nat) ∧
  (∀ filename c t data,
     fs w !! joinpath CONFIG_DIR filename = Some (RegularFile true c) →
     utf8_decode c = inr t →
     json_loads t = inr data →
     ∃ e, jsonschema_validate data schema = inl e ∧
          exc_class e = SchemaError ∧
          (check_target CONFIG_DIR schema filename w).1 =
            Return (entry filename (OtherError (exc_str e)))).
Proof.
  intros Hnode Hdec Hparse Hbad.
  assert (Hload : (load_schema CONFIG_DIR w).1 = Return schema).
  { apply load_schema_return_iff. by exists content, text. }
  assert (Hfail : ∀ filename,
            success (target_result CONFIG_DIR schema (fs w) filename) = false).
  { intros filename. unfold target_result. unfold_script.
    destruct (fs w !! joinpath CONFIG_DIR filename) as [[[] c|]|] eqn:E; simpl;
      repeat case_lib; try done.
    destruct (Hbad data) as (e' & He' & _). congruence. }
  split; [done|]. split.
  - destruct (main_loaded CONFIG_DIR w schema Hload) as (calls & Hmain & _).
    exists (target_result CONFIG_DIR schema (fs w) <$> MIRROR_FILES), calls.
    split; [|done].
    replace (forallb _ _) with false in Hmain; [done|].
    simpl. by rewrite Hfail.
  - intros filename c t data Hf Hd Hp.
    destruct (Hbad data) as (e & He & Hcls). exists e.
    split; [done|]. split; [done|].
    assert (Hv : isinstance e ValidationError = false)
      by (unfold isinstance; by rewrite Hcls).
    assert (Hj : isinstance e JSONDecodeError = false)
      by (unfold isinstance; by rewrite Hcls).
    rewrite check_target_outcome. f_equal.
    unfold target_result. unfold_script. by repeat case_lib.
Qed.

(** C10.  Two runs over the same state of the files agree: if two worlds
    hold the same node at the schema file and at each of the five targets,
    then loading the schema has the same outcome, the loop yields the same
    sequence of tuples for every schema, the exit status is the same, and
    the script ends the same way after printing the same lines.  Nothing
    else of the worlds (other files, what was printed before) matters. *)
Theorem runs_are_deterministic (w1 w2 : world) :
  fs w1 !! SCHEMA_FILE CONFIG_DIR = fs w2 !! SCHEMA_FILE CONFIG_DIR →
  (∀ filename, filename ∈ MIRROR_FILES →
     fs w1 !! joinpath CONFIG_DIR filename = fs w2 !! joinpath CONFIG_DIR filename) →
  exit_status CONFIG_DIR w1 = exit_status CONFIG_DIR w2 ∧
  (load_schema CONFIG_DIR w1).1 = (load_schema CONFIG_DIR w2).1 ∧
  (∀ schema,
     (validate_targets CONFIG_DIR schema MIRROR_FILES [] w1).1 =
     (validate_targets CONFIG_DIR schema MIRROR_FILES [] w2).1) ∧
  ∃ r out,
    (∃ calls, runs (script CONFIG_DIR) w1 r out calls) ∧
    (∃ calls, runs (script CONFIG_DIR) w2 r out calls).
Proof.
  intros Hschema Htargets.
  assert (Hload : (load_schema CONFIG_DIR w1).1 = (load_schema CONFIG_DIR w2).1).
  { symmetry in Hschema. unfold_script.
    destruct (fs w1 !! SCHEMA_FILE CONFIG_DIR) as [[[] c|]|] eqn:E; simpl;
      repeat case_lib; done. }
  assert (Hres : ∀ schema,
            target_result CONFIG_DIR schema (fs w1) <$> MIRROR_FILES =
            target_result CONFIG_DIR schema (fs w2) <$> MIRROR_FILES).
  { intros schema. apply list_fmap_ext. intros i filename Hi.
    apply target_result_local, Htargets. by eapply list_elem_of_lookup_2. }
  split; [|split; [exact Hload|split]].
  - rewrite !exit_status_cases, <- Hload.
    destruct (load_schema CONFIG_DIR w1).1 as [schema|r]; [|done].
    by rewrite Hres.
  - intros schema.
    destruct (validate_targets_runs CONFIG_DIR schema MIRROR_FILES [] w1)
      as (c1 & -> & _).
    destruct (validate_targets_runs CONFIG_DIR schema MIRROR_FILES [] w2)
      as (c2 & -> & _).
    cbn [fst]. by rewrite Hres.
  - destruct (load_schema CONFIG_DIR w1).1 as [schema|[e|code]] eqn:Hload1;
      symmetry in Hload.
    + destruct (main_loaded CONFIG_DIR w1 schema Hload1) as (c1 & Hmain1 & _).
      destruct (main_loaded CONFIG_DIR w2 schema Hload) as (c2 & Hmain2 & _).
      cbv zeta in Hmain1, Hmain2. rewrite <- Hres in Hmain2.
      eexists _, _. split; eexists; unfold script;
        (eapply runs_bind; [eassumption | apply runs_sys_exit]).
    + destruct (main_aborts CONFIG_DIR w1 e Hload1) as (c1 & Hmain1 & _).
      destruct (main_aborts CONFIG_DIR w2 e Hload) as (c2 & Hmain2 & _).
      eexists _, _. split; eexists; unfold script; apply runs_bind_raise;
        eassumption.
    + by apply load_schema_no_exit in Hload1.
Qed.

End Claims.

(** ** The claims on the concrete instance *)

#[local] Existing Instance Demo.libraries.

Lemma maven_is_target : "maven_mirror.json" ∈ MIRROR_FILES.
Proof. by apply (list_elem_of_lookup_2 _ 1). Qed.


Lemma brew_is_target : "brew_mirror.json" ∈ MIRROR_FILES.
Proof. by apply (list_elem_of_lookup_2 _ 0). Qed.

(** With the schema file absent, the run is aborted. *)
Lemma schema_load_failure_aborts_witness :
  ∃ e calls,
    (load_schema Demo.dir Demo.no_schema_world).1 = Raise (Exc e) ∧
    runs (script Demo.dir) Demo.no_schema_world (Raise (SystemExit 1))
      (abort_transcript e) calls ∧
    exit_status Demo.dir Demo.no_schema_world = 1 ∧
    Forall (touches (SCHEMA_FILE Demo.dir)) calls ∧
    ∀ filename, filename ∈ MIRROR_FILES →
      Forall (λ c, ¬ touches (joinpath Demo.dir filename) c) calls.
Proof.
  apply (@schema_load_failure_aborts Demo.libraries Demo.dir Demo.no_schema_world).
  intros (content & text & schema & Hnode & _).
  vm_compute in Hnode. discriminate Hnode.
Defined.


(** [maven_mirror.json] absent: its tuple is [Missing], the status 1. *)
Lemma missing_target_is_reported_witness :
  fs Demo.missing_world !! joinpath Demo.dir "maven_mirror.json" = None ∧
  runs (check_target Demo.dir (Demo.JBool true) "maven_mirror.json")
    Demo.missing_world (Return (entry "maven_mirror.json" Missing)) []
    [SysStat (joinpath Demo.dir "maven_mirror.json")] ∧
  exit_status Demo.dir Demo.missing_world = 1.
Proof.
  assert (Hnone : fs Demo.missing_world !! joinpath Demo.dir "maven_mirror.json" = None)
    by (vm_compute; reflexivity).
  split; [exact Hnone|].
  destruct (@missing_target_is_reported Demo.libraries Demo.dir Demo.missing_world
              (Demo.JBool true) "maven_mirror.json" Hnone) as [Hrun Hexit].
  split; [exact Hrun | exact (Hexit maven_is_target)].
Defined.


(** [brew_mirror.json] has a trailing comma. *)
Lemma malformed_json_is_reported_witness :
  (check_target Demo.dir (Demo.JBool true) "brew_mirror.json"
     Demo.malformed_world).1 =
    Return (entry "brew_mirror.json"
              (ParseError "Expecting value: line 1 column 4 (char 3)")) ∧
  exit_status Demo.dir Demo.malformed_world = 1.
Proof.
  apply (@malformed_json_is_reported Demo.libraries Demo.dir Demo.malformed_world
           (Demo.JBool true) "brew_mirror.json" "[1,]" "[1,]"
           (Exc_ JSONDecodeError "Expecting value: line 1 column 4 (char 3)" "")).
  - exact brew_is_target.
  - vm_compute; reflexivity.
  - reflexivity.
  - reflexivity.
  - reflexivity.
Defined.

(** The schema file holds [{"type": 12}]: the schema loads, the run is not
    aborted. *)
Lemma malformed_schema_gives_other_error_witness :
  (load_schema Demo.dir Demo.bad_schema_world).1 = Return (Demo.JObject [("type", Demo.JNumber 12)]) ∧
  (∃ results calls,
     runs (main Demo.dir) Demo.bad_schema_world (Return 1)
       (report_transcript results) calls ∧
     length results = 5%nat) ∧
  (∀ filename c t data,
     fs Demo.bad_schema_world !! joinpath Demo.dir filename =
       Some (RegularFile true c) →
     utf8_decode c = inr t →
     json_loads t = inr data →
     ∃ e, jsonschema_validate data (Demo.JObject [("type", Demo.JNumber 12)]) = inl e ∧
          exc_class e = SchemaError ∧
          (check_target Demo.dir (Demo.JObject [("type", Demo.JNumber 12)]) filename
             Demo.bad_schema_world).1 =
            Return (entry filename (OtherError (exc_str e)))).
Proof.
  apply (@malformed_schema_gives_other_error Demo.libraries Demo.dir Demo.bad_schema_world
           Demo.type_12_text Demo.type_12_text
           (Demo.JObject [("type", Demo.JNumber 12)])).
  - vm_compute; reflexivity.
  - reflexivity.
  - reflexivity.
  - intros data. eexists. split; reflexivity.
Defined.

(** One more file in the directory, and earlier output, change nothing. *)
Lemma runs_are_deterministic_witness :
  exit_status Demo.dir Demo.later_world = exit_status Demo.dir Demo.cluttered_world ∧
  (load_schema Demo.dir Demo.later_world).1 =
    (load_schema Demo.dir Demo.cluttered_world).1 ∧
  (∀ schema,
     (validate_targets Demo.dir schema MIRROR_FILES [] Demo.later_world).1 =
     (validate_targets Demo.dir schema MIRROR_FILES [] Demo.cluttered_world).1) ∧
  ∃ r out,
    (∃ calls, runs (script Demo.dir) Demo.later_world r out calls) ∧
    (∃ calls, runs (script Demo.dir) Demo.cluttered_world r out calls).
Proof.
  apply (@runs_are_deterministic Demo.libraries Demo.dir
           Demo.later_world Demo.cluttered_world).
  - vm_compute; reflexivity.
  - intros filename Hin. unfold MIRROR_FILES in Hin.
    rewrite !elem_of_cons, elem_of_nil in Hin.
    destruct Hin as [->|[->|[->|[->|[->|[]]]]]]; vm_compute; reflexivity.
Defined.

(** *** Runs of the script on the concrete instance *)

Example good_run_exits_0 : exit_status Demo.dir Demo.good_world = 0.
Proof. vm_compute; reflexivity. Qed.

Example violation_run_exits_1 : exit_status Demo.dir Demo.violation_world = 1.
Proof. vm_compute; reflexivity. Qed.

Example violation_run_transcript :
  stdout (script Demo.dir Demo.violation_world).2 =
    report_transcript
      [ entry "brew_mirror.json" Passed;
        entry "maven_mirror.json" Passed;
        entry "npm_mirror.json" (SchemaViolation "[] is not of type 'object'");
        entry "orbstack_mirror.json" Passed;
        entry "python_pip.json" Passed ].
Proof. vm_compute; reflexivity. Qed.

Example no_schema_run_calls :
  syscalls (script Demo.dir Demo.no_schema_world).2 =
    [SysOpen (SCHEMA_FILE Demo.dir) ModeR].
Proof. vm_compute; reflexivity. Qed.

(** Undecodable bytes are no [JSONDecodeError]: the last clause of
    [validate_file] reports them. *)
Example undecodable_target_is_other_error :
  (validate_file (Demo.JBool true) ["f.json"]
     (Demo.boot {[ ["f.json"] := Demo.file (String (Ascii.ascii_of_nat 255) "") ]})).1 =
    Return (render (OtherError
              "'utf-8' codec can't decode byte 0xff in position 0: invalid start byte")).
Proof. vm_compute; reflexivity. Qed.

(** Opening for writing does change the filesystem of the model; the script
    never does it. *)
Example open_for_writing_truncates :
  fs (py_open ["f.json"] ModeW (Demo.boot {[ ["f.json"] := Demo.file "{}" ]})).2
    !! ["f.json"] = Some (Demo.file "").
Proof. vm_compute; reflexivity. Qed.

(** ** Further properties of the script *)




Lemma isinstance_UnicodeDecodeError_other e :
  isinstance e UnicodeDecodeError = true →
  isinstance e ValidationError = false ∧ isinstance e JSONDecodeError = false.
Proof. destruct e as [[] s m]; done. Qed.

Section MoreScriptProperties.
Context `{Libraries}.
Variable CONFIG_DIR : path.

(** [validate_file] answers [True] exactly for a readable file holding JSON
    that the validator accepts, and then with the message of success. *)
Lemma validate_file_true_iff schema p w msg :
  (validate_file schema p w).1 = Return (true, msg) ↔
  msg = "✅ 通过" ∧
  ∃ data, holds_json (fs w) p data ∧ jsonschema_validate data schema = inr tt.
Proof.
  unfold holds_json. split.
  - unfold_script.
    destruct (fs w !! p) as [[[] c|]|] eqn:E; simpl; repeat case_lib;
      intros Heq; try discriminate Heq.
    injection Heq as <-. split; [done|]. eauto 10.
  - intros (-> & data & (content & text & E & Hd & Hp) & Hv).
    unfold_script. by repeat case_lib.
Qed.

Lemma target_result_success_iff schema σ filename :
  success (target_result CONFIG_DIR schema σ filename) = true ↔
  ∃ data, holds_json σ (joinpath CONFIG_DIR filename) data ∧
          jsonschema_validate data schema = inr tt.
Proof.
  unfold holds_json, target_result, success. split.
  - unfold_script.
    destruct (σ !! joinpath CONFIG_DIR filename) as [[[] c|]|] eqn:E; simpl;
      repeat case_lib; intros Heq; try discriminate Heq.
    eauto 10.
  - intros (data & (content & text & E & Hd & Hp) & Hv).
    unfold_script. by repeat case_lib.
Qed.

(** The outcome of [load_schema] depends on the node of the schema file
    only. *)
Lemma load_schema_local w1 w2 :
  fs w1 !! SCHEMA_FILE CONFIG_DIR = fs w2 !! SCHEMA_FILE CONFIG_DIR →
  (load_schema CONFIG_DIR w1).1 = (load_schema CONFIG_DIR w2).1.
Proof.
  intros Hnode. symmetry in Hnode. unfold_script.
  destruct (fs w1 !! SCHEMA_FILE CONFIG_DIR) as [[[] c|]|] eqn:E; simpl;
    repeat case_lib; done.
Qed.


Lemma check_target_calls schema filename w :
  runs (check_target CONFIG_DIR schema filename) w
    (Return (target_result CONFIG_DIR schema (fs w) filename)) []
    (target_calls (fs w) (joinpath CONFIG_DIR filename)).
Proof.
  unfold runs, target_result, target_calls. unfold_script.
  destruct (fs w !! joinpath CONFIG_DIR filename) as [[[] c|]|] eqn:E; simpl;
    repeat case_lib; by rewrite <- ?app_assoc, ?app_nil_r.
Qed.


(** What [open] raises is an [OSError], and [validate_file] files it under
    [OtherError]. *)
Lemma py_open_raises p w e w' :
  py_open p ModeR w = (Raise (Exc e), w') →
  isinstance e OSError = true ∧ raised_as e = OtherError (exc_str e).
Proof.
  unfold py_open.
  destruct (fs w !! p) as [[[] c|]|]; intros [= <- _]; done.
Qed.

(** The tuple of a target is the result that the specification's file
    validator describes. *)
Lemma target_result_expected schema σ filename :
  target_result CONFIG_DIR schema σ filename =
    entry filename (expected_result σ schema (joinpath CONFIG_DIR filename)).
Proof.
  unfold target_result, expected_result, raised_as. unfold_script.
  destruct (σ !! joinpath CONFIG_DIR filename) as [[[] c|]|] eqn:E; simpl;
    repeat case_lib; done.
Qed.

(** Where [stat] is not refused, the loop body is that of [check_target]. *)
Lemma check_target_with_allowed denied schema filename w :
  joinpath CONFIG_DIR filename ∉ denied →
  check_target_with CONFIG_DIR (path_exists_os denied) schema filename w =
  check_target CONFIG_DIR schema filename w.
Proof.
  intros Hallowed. unfold check_target, check_target_with, path_exists_os.
  unfold mbind, M_bind. by rewrite decide_False.
Qed.

Lemma validate_targets_with_allowed denied schema files :
  Forall (λ filename, joinpath CONFIG_DIR filename ∉ denied) files →
  ∀ results w,
    validate_targets_with CONFIG_DIR (path_exists_os denied) schema files results w =
    validate_targets CONFIG_DIR schema files results w.
Proof.
  unfold validate_targets.
  induction 1 as [|filename files Hallowed _ IH]; intros results w; [done|].
  cbn [validate_targets_with]. unfold mbind, M_bind.
  rewrite check_target_with_allowed by done. unfold check_target.
  destruct (check_target_with CONFIG_DIR path_exists schema filename w)
    as [[r|x] w']; [apply IH | done].
Qed.

End MoreScriptProperties.

Section Extras.
Context `{Libraries}.
Variable CONFIG_DIR : path.

(** X1.  [validate_file] never raises: for every schema, path and world it
    returns a pair that displays one of [Passed], [SchemaViolation],
    [ParseError] or [OtherError] (never [Missing]), prints nothing, and
    calls the filesystem on its own path only, for reading. *)
Theorem validate_file_never_raises (schema : pyobj) (p : path) (w : world) :
  ∃ v calls,
    runs (validate_file schema p) w (Return (render v)) [] calls ∧
    v ≠ Missing ∧
    Forall (touches p) calls.
Proof.
  unfold runs. unfold_script.
  destruct (fs w !! p) as [[[] c|]|] eqn:E; simpl; repeat case_lib;
    rewrite <- ?app_assoc, ?app_nil_r;
    first
      [ eexists Passed, _; split; [reflexivity | split; [done | calls_ok]]
      | eexists (SchemaViolation _), _; split; [reflexivity | split; [done | calls_ok]]
      | eexists (ParseError _), _; split; [reflexivity | split; [done | calls_ok]]
      | eexists (OtherError _), _; split; [reflexivity | split; [done | calls_ok]] ].
Qed.

(** X2.  [validate_file] returns the pair of success exactly when the path
    is a readable file whose bytes decode and parse to a value that
    [jsonschema.validate] accepts against the schema; and whenever its
    success flag is [True] its message is the message of success. *)
Theorem validate_file_passes_iff (schema : pyobj) (p : path) (w : world) :
  ((validate_file schema p w).1 = Return (render Passed) ↔
     ∃ data, holds_json (fs w) p data ∧ jsonschema_validate data schema = inr tt) ∧
  (∀ msg, (validate_file schema p w).1 = Return (true, msg) → msg = (render Passed).2).
Proof.
  split.
  - change (render Passed) with (true, "✅ 通过").
    rewrite validate_file_true_iff. split; [by intros [_ ?] | by intros ?; split].
  - intros msg Hmsg. by apply validate_file_true_iff in Hmsg as [-> _].
Qed.

(** X3.  Called on a path that is not a readable file (absent, a directory,
    or without read permission), [open] raises an [OSError] [e], and
    [validate_file] returns the [OtherError] pair with [str(e)] of that very
    exception, after the open alone: the [Missing] verdict is given by
    [main], not by [validate_file]. *)
Theorem unopenable_path_is_other_error (schema : pyobj) (p : path) (w : world) :
  (∀ content, fs w !! p ≠ Some (RegularFile true content)) →
  ∃ e w',
    py_open p ModeR w = (Raise (Exc e), w') ∧
    isinstance e OSError = true ∧
    runs (validate_file schema p) w (Return (render (OtherError (exc_str e)))) []
      [SysOpen p ModeR].
Proof.
  intros Hnot. unfold runs. unfold_script.
  destruct (fs w !! p) as [[[] c|]|] eqn:E; simpl.
  - by destruct (Hnot c).
  - eexists _, _. split; [reflexivity|]. split; [done|]. by rewrite app_nil_r.
  - eexists _, _. split; [reflexivity|]. split; [done|]. by rewrite app_nil_r.
  - eexists _, _. split; [reflexivity|]. split; [done|]. by rewrite app_nil_r.
Qed.

(** X4.  The tuple of a target is [Missing] exactly when its path is absent
    from the filesystem: a path that exists, whatever it holds, gets another
    result. *)
Theorem missing_iff_absent (schema : pyobj) (filename : string) (w : world) :
  (check_target CONFIG_DIR schema filename w).1 = Return (entry filename Missing) ↔
  fs w !! joinpath CONFIG_DIR filename = None.
Proof.
  split.
  - unfold_script.
    destruct (fs w !! joinpath CONFIG_DIR filename) as [[[] c|]|] eqn:E; simpl;
      repeat case_lib; intros Heq; try done;
      injection Heq as Heq; vm_compute in Heq; discriminate Heq.
  - intros Hnone. unfold_script. by rewrite Hnone.
Qed.

(** X5.  If reading a readable target raises an exception that is neither a
    [ValidationError] nor a [JSONDecodeError], be it while decoding the
    bytes or while parsing the text, the tuple of the target is [OtherError]
    with [str(e)]; for a target of [MIRROR_FILES] the exit status is 1.  A
    [UnicodeDecodeError] is such an exception. *)
Theorem other_read_failure_is_other_error (w : world) (schema : pyobj)
    (filename content : string) (e : exception) :
  fs w !! joinpath CONFIG_DIR filename = Some (RegularFile true content) →
  utf8_decode content = inl e ∨
    (∃ text, utf8_decode content = inr text ∧ json_loads text = inl e) →
  isinstance e ValidationError = false →
  isinstance e JSONDecodeError = false →
  (check_target CONFIG_DIR schema filename w).1 =
    Return (entry filename (OtherError (exc_str e))) ∧
  (filename ∈ MIRROR_FILES → exit_status CONFIG_DIR w = 1).
Proof.
  intros Hnode Hraise Hv Hj.
  assert (Hres : ∀ schema', target_result CONFIG_DIR schema' (fs w) filename =
                            entry filename (OtherError (exc_str e))).
  { intros schema'. unfold target_result. unfold_script.
    destruct Hraise as [Hd|(text & Hd & Hp)]; by repeat case_lib. }
  split.
  - by rewrite check_target_outcome, Hres.
  - intros Hin. apply exit_status_failed_target with filename; [done|].
    intros schema' _. by rewrite Hres.
Qed.


(** X8.  Only six files matter: two worlds whose filesystems agree on the
    schema file and on the five targets give the same outcome, the same exit
    status and the same printed lines, whatever else the filesystems
    hold. *)
Theorem only_six_files_matter (w1 w2 : world) :
  fs w1 !! SCHEMA_FILE CONFIG_DIR = fs w2 !! SCHEMA_FILE CONFIG_DIR →
  (∀ filename, filename ∈ MIRROR_FILES →
     fs w1 !! joinpath CONFIG_DIR filename = fs w2 !! joinpath CONFIG_DIR filename) →
  exit_status CONFIG_DIR w1 = exit_status CONFIG_DIR w2 ∧
  ∃ r out,
    (∃ calls, runs (script CONFIG_DIR) w1 r out calls) ∧
    (∃ calls, runs (script CONFIG_DIR) w2 r out calls).
Proof.
  intros Hschema Htargets.
  pose proof (load_schema_local CONFIG_DIR w1 w2 Hschema) as Hload.
  rewrite !exit_status_cases, <- Hload.
  destruct (load_schema CONFIG_DIR w1).1 as [schema|[e|code]] eqn:Hload1;
    symmetry in Hload.
  - assert (Hres : target_result CONFIG_DIR schema (fs w1) <$> MIRROR_FILES =
                   target_result CONFIG_DIR schema (fs w2) <$> MIRROR_FILES).
    { apply list_fmap_ext. intros i filename Hi.
      apply target_result_local, Htargets. by eapply list_elem_of_lookup_2. }
    destruct (main_loaded CONFIG_DIR w1 schema Hload1) as (c1 & Hmain1 & _).
    destruct (main_loaded CONFIG_DIR w2 schema Hload) as (c2 & Hmain2 & _).
    cbv zeta in Hmain1, Hmain2. rewrite <- Hres in Hmain2.
    split; [by rewrite Hres|].
    eexists _, _. split; eexists; unfold script;
      (eapply runs_bind; [eassumption | apply runs_sys_exit]).
  - destruct (main_aborts CONFIG_DIR w1 e Hload1) as (c1 & Hmain1 & _).
    destruct (main_aborts CONFIG_DIR w2 e Hload) as (c2 & Hmain2 & _).
    split; [done|].
    eexists _, _. split; eexists; unfold script; apply runs_bind_raise; eassumption.
  - by apply load_schema_no_exit in Hload1.
Qed.

(** X9.  The exit status is 0 exactly when the schema file is a readable
    file holding JSON and each of the five targets is a readable file
    holding JSON that [jsonschema.validate] accepts against that schema. *)
Theorem exit_zero_iff_files_valid (w : world) :
  exit_status CONFIG_DIR w = 0 ↔
  ∃ schema,
    holds_json (fs w) (SCHEMA_FILE CONFIG_DIR) schema ∧
    ∀ filename, filename ∈ MIRROR_FILES →
      ∃ data, holds_json (fs w) (joinpath CONFIG_DIR filename) data ∧
              jsonschema_validate data schema = inr tt.
Proof.
  rewrite exit_status_cases.
  assert (Hall : ∀ schema,
            forallb success
              (target_result CONFIG_DIR schema (fs w) <$> MIRROR_FILES) = true ↔
            ∀ filename, filename ∈ MIRROR_FILES →
              ∃ data, holds_json (fs w) (joinpath CONFIG_DIR filename) data ∧
                      jsonschema_validate data schema = inr tt).
  { intros schema.
    rewrite <- Is_true_true, forallb_True, Forall_fmap, Forall_forall.
    split; intros Hall filename Hin; specialize (Hall filename Hin); simpl in *.
    - by apply target_result_success_iff, Is_true_true.
    - by apply Is_true_true, target_result_success_iff. }
  destruct (load_schema CONFIG_DIR w).1 as [schema|r] eqn:Hload.
  - apply load_schema_return_iff in Hload. split.
    + intros Hzero. exists schema. split; [exact Hload|]. apply Hall.
      by destruct (forallb _ _).
    + intros (schema' & (content & text & E & Hd & Hp) & Hok).
      destruct Hload as (content0 & text0 & E0 & Hd0 & Hp0).
      assert (schema' = schema) as -> by congruence.
      apply Hall in Hok. by rewrite Hok.
  - split; [done|]. intros (schema & Hs & _).
    apply load_schema_return_iff in Hs. congruence.
Qed.


(** X13.  A target whose path exists but cannot be opened for reading (a
    directory, or a file without read permission) is not [Missing]: [open]
    raises an [OSError] [e] and the tuple is [OtherError] with [str(e)] of
    that very exception, after the existence test and the open and without
    a read; for a target of [MIRROR_FILES] the exit status is 1. *)
Theorem unopenable_target_is_other_error (w : world) (schema : pyobj)
    (filename : string) :
  fs w !! joinpath CONFIG_DIR filename = Some Directory ∨
    (∃ content, fs w !! joinpath CONFIG_DIR filename = Some (RegularFile false content)) →
  ∃ e w',
    py_open (joinpath CONFIG_DIR filename) ModeR w = (Raise (Exc e), w') ∧
    isinstance e OSError = true ∧
    runs (check_target CONFIG_DIR schema filename) w
      (Return (entry filename (OtherError (exc_str e)))) []
      [SysStat (joinpath CONFIG_DIR filename);
       SysOpen (joinpath CONFIG_DIR filename) ModeR] ∧
    (filename ∈ MIRROR_FILES → exit_status CONFIG_DIR w = 1).
Proof.
  intros Hnode.
  assert (∃ e w', py_open (joinpath CONFIG_DIR filename) ModeR w = (Raise (Exc e), w'))
    as (e & w' & Hopen).
  { unfold py_open. destruct Hnode as [->|[content ->]]; by eexists _, _. }
  destruct (py_open_raises _ _ _ _ Hopen) as [Hos Hother].
  assert (Hres : ∀ schema', target_result CONFIG_DIR schema' (fs w) filename =
                            entry filename (OtherError (exc_str e))).
  { intros schema'. rewrite target_result_expected. f_equal.
    unfold py_open in Hopen. unfold expected_result.
    destruct Hnode as [Hn|[content Hn]]; rewrite Hn in *; injection Hopen as <- _;
      done. }
  exists e, w'. split; [exact Hopen|]. split; [exact Hos|]. split.
  - pose proof (check_target_calls CONFIG_DIR schema filename w) as Hrun.
    unfold runs in *. rewrite Hrun, Hres. unfold target_calls.
    by destruct Hnode as [->|[content ->]].
  - intros Hin. apply exit_status_failed_target with filename; [done|].
    intros schema' _. by rewrite Hres.
Qed.

(** X14.  Where no [stat] of a target is refused, the loop returns, and the
    tuple it records for each target, in the order of [MIRROR_FILES], is
    the result that the specification's file validator describes for the
    node at the target's path: [Missing] for an absent path, [OtherError]
    for a path that cannot be opened, the result of the matching [except]
    clause for what decoding, parsing or validating raised, and [Passed]
    otherwise. *)
Theorem loop_records_expected_results (denied : gset path) (schema : pyobj)
    (w : world) :
  (∀ filename, filename ∈ MIRROR_FILES → joinpath CONFIG_DIR filename ∉ denied) →
  ∃ calls,
    runs (validate_targets_with CONFIG_DIR (path_exists_os denied) schema
            MIRROR_FILES []) w
      (Return ((λ filename,
                  entry filename
                    (expected_result (fs w) schema (joinpath CONFIG_DIR filename)))
                 <$> MIRROR_FILES))
      [] calls.
Proof.
  intros Hallowed.
  destruct (validate_targets_runs CONFIG_DIR schema MIRROR_FILES [] w)
    as (calls & Hloop & _).
  exists calls. unfold runs.
  rewrite validate_targets_with_allowed by (by apply Forall_forall).
  rewrite Hloop. f_equal. f_equal. rewrite app_nil_l.
  apply list_fmap_ext. intros i filename _. apply target_result_expected.
Qed.

End Extras.


(** X12.  The [(success, message)] pair tells the kind of result and its
    message apart: two results are displayed by the same pair only if they
    are the same result. *)
Theorem render_injective (v1 v2 : ValidationResult) :
  render v1 = render v2 ↔ v1 = v2.
Proof.
  split; [|by intros ->].
  destruct v1, v2; intros Heq; try done; injection Heq as Heq;
    first [ f_equal; vm_compute in Heq; congruence
          | vm_compute in Heq; discriminate Heq ].
Qed.

(** *** The further properties on the concrete instance *)

Lemma pip_is_target : "python_pip.json" ∈ MIRROR_FILES.
Proof. by apply (list_elem_of_lookup_2 _ 4). Qed.

Lemma orbstack_is_target : "orbstack_mirror.json" ∈ MIRROR_FILES.
Proof. by apply (list_elem_of_lookup_2 _ 3). Qed.

(** [validate_file] on the absent [maven_mirror.json]. *)
Lemma unopenable_path_is_other_error_witness :
  ∃ e w',
    py_open (joinpath Demo.dir "maven_mirror.json") ModeR Demo.missing_world =
      (Raise (Exc e), w') ∧
    isinstance e OSError = true ∧
    runs (validate_file (Demo.JBool true) (joinpath Demo.dir "maven_mirror.json"))
      Demo.missing_world (Return (render (OtherError (exc_str e)))) []
      [SysOpen (joinpath Demo.dir "maven_mirror.json") ModeR].
Proof.
  apply (@unopenable_path_is_other_error Demo.libraries (Demo.JBool true)
           (joinpath Demo.dir "maven_mirror.json") Demo.missing_world).
  intros content Hnode. vm_compute in Hnode. discriminate Hnode.
Defined.

(** [python_pip.json] holds the byte 0xff. *)
Lemma other_read_failure_is_other_error_witness :
  (check_target Demo.dir (Demo.JBool true) "python_pip.json"
     Demo.undecodable_world).1 =
    Return (entry "python_pip.json"
              (OtherError "'utf-8' codec can't decode byte 0xff in position 0: invalid start byte")) ∧
  exit_status Demo.dir Demo.undecodable_world = 1.
Proof.
  destruct (@other_read_failure_is_other_error Demo.libraries Demo.dir
              Demo.undecodable_world (Demo.JBool true) "python_pip.json"
              (String (Ascii.ascii_of_nat 255) "")
              (Exc_ UnicodeDecodeError
                 "'utf-8' codec can't decode byte 0xff in position 0: invalid start byte" ""))
    as [Htuple Hexit].
  - vm_compute; reflexivity.
  - left. reflexivity.
  - reflexivity.
  - reflexivity.
  - split; [exact Htuple | exact (Hexit pip_is_target)].
Defined.

(** One more file in the directory changes nothing. *)
Lemma only_six_files_matter_witness :
  exit_status Demo.dir Demo.good_world = exit_status Demo.dir Demo.cluttered_world ∧
  ∃ r out,
    (∃ calls, runs (script Demo.dir) Demo.good_world r out calls) ∧
    (∃ calls, runs (script Demo.dir) Demo.cluttered_world r out calls).
Proof.
  apply (@only_six_files_matter Demo.libraries Demo.dir
           Demo.good_world Demo.cluttered_world).
  - vm_compute; reflexivity.
  - intros filename Hin. unfold MIRROR_FILES in Hin.
    rewrite !elem_of_cons, elem_of_nil in Hin.
    destruct Hin as [->|[->|[->|[->|[->|[]]]]]]; vm_compute; reflexivity.
Defined.


(** [orbstack_mirror.json] is a directory. *)
Lemma unopenable_target_is_other_error_witness :
  ∃ e w',
    py_open (joinpath Demo.dir "orbstack_mirror.json") ModeR Demo.directory_world =
      (Raise (Exc e), w') ∧
    isinstance e OSError = true ∧
    runs (check_target Demo.dir (Demo.JBool true) "orbstack_mirror.json")
      Demo.directory_world
      (Return (entry "orbstack_mirror.json" (OtherError (exc_str e)))) []
      [SysStat (joinpath Demo.dir "orbstack_mirror.json");
       SysOpen (joinpath Demo.dir "orbstack_mirror.json") ModeR] ∧
    exit_status Demo.dir Demo.directory_world = 1.
Proof.
  destruct (@unopenable_target_is_other_error Demo.libraries Demo.dir
              Demo.directory_world (Demo.JBool true) "orbstack_mirror.json")
    as (e & w' & Hopen & Hcls & Hrun & Hexit).
  - left. vm_compute; reflexivity.
  - exists e, w'. split; [exact Hopen|]. split; [exact Hcls|].
    split; [exact Hrun|]. exact (Hexit orbstack_is_target).
Defined.

(** No [stat] is refused on the targets of [violation_world]. *)
Lemma loop_records_expected_results_witness :
  ∃ calls,
    runs (validate_targets_with Demo.dir (path_exists_os {[ ["elsewhere"] ]})
            (Demo.JObject [("type", Demo.JString "object")]) MIRROR_FILES [])
      Demo.violation_world
      (Return ((λ filename,
                  entry filename
                    (expected_result (fs Demo.violation_world)
                       (Demo.JObject [("type", Demo.JString "object")])
                       (joinpath Demo.dir filename)))
                 <$> MIRROR_FILES))
      [] calls.
Proof.
  apply (@loop_records_expected_results Demo.libraries Demo.dir
           {[ ["elsewhere"] ]} (Demo.JObject [("type", Demo.JString "object")])
           Demo.violation_world).
  intros filename Hin. unfold MIRROR_FILES in Hin.
  rewrite !elem_of_cons, elem_of_nil in Hin.
  destruct Hin as [->|[->|[->|[->|[->|[]]]]]]; by apply not_elem_of_singleton.
Defined.

(** *** The claims that fail on the code *)

(** C4.  A failure of the existence test is not recorded and stops the run.
    With the five good targets of [good_world], let [stat] be refused on
    [maven_mirror.json].  The loop records the tuple of [brew_mirror.json],
    then [Path.exists] raises [PermissionError] at line 63, outside every
    [try]: the loop raises it, the three targets after it are never
    touched, the script prints the banner and the line of the loaded schema
    and no report, and ends with the uncaught exception, exit status 1. *)
Theorem stat_failure_escapes_the_loop :
  (validate_targets_with Demo.dir
     (path_exists_os {[ joinpath Demo.dir "maven_mirror.json" ]})
     (Demo.JObject [("type", Demo.JString "object")]) MIRROR_FILES []
     Demo.good_world).1 =
    Raise (Exc (os_error PermissionError "[Errno 13] Permission denied"
                  (joinpath Demo.dir "maven_mirror.json"))) ∧
  script_with Demo.dir (path_exists_os {[ joinpath Demo.dir "maven_mirror.json" ]})
    Demo.good_world =
    (Raise (Exc (os_error PermissionError "[Errno 13] Permission denied"
                   (joinpath Demo.dir "maven_mirror.json"))),
     World (fs Demo.good_world)
       [ str_mul "=" 60; "镜像配置文件 Schema 验证"; str_mul "=" 60;
         "✓ 已加载 schema: ToolsConfiguration.schema.json" +:+ nl ]
       [ SysOpen (SCHEMA_FILE Demo.dir) ModeR; SysRead (SCHEMA_FILE Demo.dir);
         SysStat (joinpath Demo.dir "brew_mirror.json");
         SysOpen (joinpath Demo.dir "brew_mirror.json") ModeR;
         SysRead (joinpath Demo.dir "brew_mirror.json");
         SysStat (joinpath Demo.dir "maven_mirror.json") ]) ∧
  exit_status_with Demo.dir
    (path_exists_os {[ joinpath Demo.dir "maven_mirror.json" ]}) Demo.good_world = 1.
Proof. repeat split; vm_compute; reflexivity. Qed.


(** *** More runs on the concrete instance *)

(** Python pads by code points: the seven code points of this name take 11
    bytes and get 23 spaces. *)
Example ljust_counts_code_points :
  code_points "镜像.json" = 7%nat ∧
  String.length "镜像.json" = 11%nat ∧
  ljust 30 "镜像.json" = "镜像.json" +:+ str_mul " " 23.
Proof. repeat split; vm_compute; reflexivity. Qed.

(** A missing required property is named in the message, a value of the
    wrong type is not. *)
Example required_property_is_named :
  jsonschema_validate (Demo.JObject []) Demo.registry_schema =
    inl (Exc_ ValidationError "'registry' is a required property"
           "'registry' is a required property") ∧
  mentions "registry" "'registry' is a required property" = true.
Proof. repeat split; vm_compute; reflexivity. Qed.

(** What the absent and the unopenable look like in a report. *)
Example missing_run_lines :
  (stdout (script Demo.dir Demo.missing_world).2) !! 7%nat =
    Some (report_line (entry "maven_mirror.json" Missing)) ∧
  (stdout (script Demo.dir Demo.directory_world).2) !! 9%nat =
    Some (report_line
            (entry "orbstack_mirror.json"
               (OtherError "[Errno 21] Is a directory: 'configs/orbstack_mirror.json'"))).
Proof. repeat split; vm_compute; reflexivity. Qed.
